(** * DuaScreen content loading: cache-first load and manual retry

    A shallow embedding of the data-loading code of the dua detail
    screen (DuaScreen in _layout.tsx): the [fetchData] effect that runs
    when the screen receives a subcategory id, and the [onPress] handler
    of the Retry button.  Both are asynchronous functions over three
    collaborators: AsyncStorage (a durable string store), [fetch] (the
    remote API) and NetInfo (connectivity).  They are modelled as
    computations in a state-and-exception monad whose state holds the
    store, the React state of the component, the mutable local
    variables of the running function and the console. *)

From stdpp Require Import gmap strings list fin_maps.
From stdpp Require Import pretty.

Open Scope string_scope.

(** ** Data model *)

(** [type Subcategory] *)
Record Subcategory := {
  sc_id : string;
  sc_category_id : string;
  sc_name : string;
  sc_description : string
}.

(** [type Dua]; the fields marked [?] in the source are optional. *)
Record Dua := {
  id : string;
  subcategory_id : string;
  name : string;
  arabic_text : string;
  reference : string;
  description : string;
  translation : string;
  urdu_translation : option string;
  count : option string;
  audio_path : option string
}.

(** [JSON.parse] and [JSON.stringify] belong to the platform.  The code
    uses them at the two types above, the values being typed as the
    declarations of the source type them; [JSON_parse] answers [None]
    where [JSON.parse] throws a SyntaxError. *)
Class Json (A : Type) := {
  JSON_parse : string -> option A;
  JSON_stringify : A -> string
}.

(** What [fetch] resolves to: the [ok] flag and the body text, which
    [response.json()] parses. *)
Record Response := { ok : bool; body : string }.

(** The collaborators as one load sees them.  [fetch] answers [None]
    where the promise rejects (a network error); [getItem_rejects] and
    [setItem_rejects] tell for which keys the store operation rejects
    with a storage error. *)
Record Env := {
  isConnected : bool;
  fetch : string -> option Response;
  getItem_rejects : string -> bool;
  setItem_rejects : string -> bool
}.

(** The React state of DuaScreen that the loading code writes.  [error]
    is [string | null]: [None] is [null].  [soundObjects] keeps the
    indices that were given an [Audio.Sound]. *)
Record UI := {
  subcategory : option Subcategory;
  subcategoryDuas : list Dua;
  loading : bool;
  error : option string;
  soundObjects : gset nat
}.

(** The initial values of the [useState] hooks. *)
Definition initialUI : UI :=
  {| subcategory := None; subcategoryDuas := []; loading := true;
     error := Some ""; soundObjects := ∅ |}.

(** What outlives a call: the AsyncStorage contents and the component
    state. *)
Record World := {
  store : gmap string string;
  ui : UI
}.

(** A new mount of the screen over the same store: every [useState]
    hook starts again from its initial value. *)
Definition remount (w : World) : World :=
  {| store := store w; ui := initialUI |}.

(** The [let] variables of [fetchData]. *)
Record Locals := {
  subcategoryData : option Subcategory;
  duasData : option (list Dua);
  fromCache : bool
}.

Definition noLocals : Locals :=
  {| subcategoryData := None; duasData := None; fromCache := false |}.

(** ** The monad of an async function body *)

Record Frame (L : Type) := {
  world : World;
  vars : L;
  console : list string
}.
Arguments world {L} _.
Arguments vars {L} _.
Arguments console {L} _.

(** The result of a step: a value, or a thrown exception (a rejected
    promise under [await]). *)
Inductive Res (A : Type) :=
| Val (a : A)
| Exn.
Arguments Val {A} a.
Arguments Exn {A}.

Definition Async (L A : Type) : Type := Frame L -> Res A * Frame L.

#[global] Instance Async_ret {L} : MRet (Async L) :=
  fun A a f => (Val a, f).

#[global] Instance Async_bind {L} : MBind (Async L) :=
  fun A B k m f =>
    match m f with
    | (Val a, f') => k a f'
    | (Exn, f') => (Exn, f')
    end.

Definition throw {L A} : Async L A := fun f => (Exn, f).

(** [try { body } catch { handler }]: the handler runs in the state the
    body had reached when it threw. *)
Definition try_catch {L A} (body handler : Async L A) : Async L A :=
  fun f =>
    match body f with
    | (Val a, f') => (Val a, f')
    | (Exn, f') => handler f'
    end.

(** [try { body } finally { final }] *)
Definition try_finally {L A} (body : Async L A) (final : Async L unit)
  : Async L A :=
  fun f =>
    match body f with
    | (r, f') =>
        match final f' with
        | (Val _, f'') => (r, f'')
        | (Exn, f'') => (Exn, f'')
        end
    end.

Definition skip {L} : Async L unit := mret tt.

(** State access. *)
Definition modify_ui {L} (g : UI -> UI) : Async L unit :=
  fun f =>
    (Val tt,
     {| world := {| store := store (world f); ui := g (ui (world f)) |};
        vars := vars f; console := console f |}).

Definition modify_vars {L} (g : L -> L) : Async L unit :=
  fun f =>
    (Val tt,
     {| world := world f; vars := g (vars f); console := console f |}).

Definition read_var {L A} (g : L -> A) : Async L A :=
  fun f => (Val (g (vars f)), f).

Definition console_log {L} (msg : string) : Async L unit :=
  fun f =>
    (Val tt,
     {| world := world f; vars := vars f; console := console f ++ [msg] |}).

(** The React setters. *)
Definition setSubcategory {L} (v : Subcategory) : Async L unit :=
  modify_ui (fun u =>
    {| subcategory := Some v; subcategoryDuas := subcategoryDuas u;
       loading := loading u; error := error u;
       soundObjects := soundObjects u |}).

Definition setSubcategoryDuas {L} (v : list Dua) : Async L unit :=
  modify_ui (fun u =>
    {| subcategory := subcategory u; subcategoryDuas := v;
       loading := loading u; error := error u;
       soundObjects := soundObjects u |}).

Definition setLoading {L} (v : bool) : Async L unit :=
  modify_ui (fun u =>
    {| subcategory := subcategory u; subcategoryDuas := subcategoryDuas u;
       loading := v; error := error u;
       soundObjects := soundObjects u |}).

Definition setError {L} (v : option string) : Async L unit :=
  modify_ui (fun u =>
    {| subcategory := subcategory u; subcategoryDuas := subcategoryDuas u;
       loading := loading u; error := v;
       soundObjects := soundObjects u |}).

Definition setSoundObjects {L} (v : gset nat) : Async L unit :=
  modify_ui (fun u =>
    {| subcategory := subcategory u; subcategoryDuas := subcategoryDuas u;
       loading := loading u; error := error u;
       soundObjects := v |}).

(** Assignments to the locals of [fetchData]. *)
Definition set_subcategoryData (v : Subcategory) : Async Locals unit :=
  modify_vars (fun l =>
    {| subcategoryData := Some v; duasData := duasData l;
       fromCache := fromCache l |}).

Definition set_duasData (v : list Dua) : Async Locals unit :=
  modify_vars (fun l =>
    {| subcategoryData := subcategoryData l; duasData := Some v;
       fromCache := fromCache l |}).

Definition set_fromCache (v : bool) : Async Locals unit :=
  modify_vars (fun l =>
    {| subcategoryData := subcategoryData l; duasData := duasData l;
       fromCache := v |}).

(** JavaScript truthiness of a string, and of [string | null]. *)
Definition truthy (s : string) : bool :=
  match s with
  | EmptyString => false
  | String _ _ => true
  end.

Definition truthy_opt (o : option string) : bool :=
  match o with
  | Some s => truthy s
  | None => false
  end.

(** ** The collaborators *)

Section Collaborators.
Context {L : Type} (env : Env).

(** [AsyncStorage.getItem(key)] *)
Definition AsyncStorage_getItem (key : string) : Async L (option string) :=
  fun f =>
    if getItem_rejects env key then (Exn, f)
    else (Val (store (world f) !! key), f).

(** [AsyncStorage.setItem(key, value)] *)
Definition AsyncStorage_setItem (key value : string) : Async L unit :=
  fun f =>
    if setItem_rejects env key then (Exn, f)
    else
      (Val tt,
       {| world := {| store := <[key := value]> (store (world f));
                      ui := ui (world f) |};
          vars := vars f; console := console f |}).

(** [fetch(url)] *)
Definition do_fetch (url : string) : Async L Response :=
  fun f =>
    match fetch env url with
    | Some r => (Val r, f)
    | None => (Exn, f)
    end.

(** [NetInfo.fetch()], read at [.isConnected]; the probe is taken to
    resolve. *)
Definition NetInfo_fetch : Async L bool := mret (isConnected env).
End Collaborators.

(** [JSON.parse(text)] and [response.json()] *)
Definition parse {L A} `{Json A} (text : string) : Async L A :=
  match JSON_parse text with
  | Some v => mret v
  | None => throw
  end.

Definition json {L A} `{Json A} (r : Response) : Async L A :=
  parse (body r).

(** ** What the screen shows *)

(** The three branches of the JSX of DuaScreen below the header: the
    spinner while [loading], the error panel (with the Retry button)
    when [error] is truthy, the list of duas otherwise. *)
Inductive View :=
| LoadingView
| ErrorView (message : string)
| ContentView (duas : list Dua).

Definition render (u : UI) : View :=
  if loading u then LoadingView
  else
    match error u with
    | Some message =>
        if truthy message then ErrorView message
        else ContentView (subcategoryDuas u)
    | None => ContentView (subcategoryDuas u)
    end.

(** ** Reading a finished load as an outcome

    [fetchData] returns nothing: its result is the state it leaves.  The
    three outcomes of a load are read off the frame it ends in.  The
    bundle is on screen with no error, and it came from the store
    ([fromCache] was set) or from the network (the success line was
    logged with [fromCache] unset); or the error panel is shown. *)

Definition bundle_shown (u : UI) (s : Subcategory) (d : list Dua) : Prop :=
  subcategory u = Some s /\ subcategoryDuas u = d /\
  error u = None /\ loading u = false.

Definition Cached (f : Frame Locals) (s : Subcategory) (d : list Dua) : Prop :=
  fromCache (vars f) = true /\ bundle_shown (ui (world f)) s d.

Definition Fresh (f : Frame Locals) (s : Subcategory) (d : list Dua) : Prop :=
  fromCache (vars f) = false /\
  "Successfully fetched fresh data from network" ∈ console f /\
  bundle_shown (ui (world f)) s d.

Definition Unavailable {L} (f : Frame L) (reason : string) : Prop :=
  render (ui (world f)) = ErrorView reason.

(** The load finished its network branch: both fetches and both writes
    went through. *)
Definition refreshed (f : Frame Locals) : Prop :=
  "Successfully fetched fresh data from network" ∈ console f.

(** ** A concrete codec and sample data

    A serializer that prints the two types as JSON text, and a parser
    that recognizes the texts of the sample values below (and rejects
    every other text, the empty one included). *)

Module Sample.

Definition dq : string := String (Ascii.ascii_of_nat 34) EmptyString.

Definition quoted (s : string) : string := dq +:+ s +:+ dq.

Definition field (k v : string) : string := quoted k +:+ ":" +:+ quoted v.

Definition opt_field (k : string) (v : option string) : string :=
  match v with
  | Some s => "," +:+ field k s
  | None => ""
  end.

Definition print_subcategory (s : Subcategory) : string :=
  "{" +:+ field "id" (sc_id s) +:+ "," +:+
  field "category_id" (sc_category_id s) +:+ "," +:+
  field "name" (sc_name s) +:+ "," +:+
  field "description" (sc_description s) +:+ "}".

Definition print_dua (d : Dua) : string :=
  "{" +:+ field "id" (id d) +:+ "," +:+
  field "subcategory_id" (subcategory_id d) +:+ "," +:+
  field "name" (name d) +:+ "," +:+
  field "arabic_text" (arabic_text d) +:+ "," +:+
  field "reference" (reference d) +:+ "," +:+
  field "description" (description d) +:+ "," +:+
  field "translation" (translation d) +:+
  opt_field "urdu_translation" (urdu_translation d) +:+
  opt_field "count" (count d) +:+
  opt_field "audio_path" (audio_path d) +:+ "}".

Fixpoint print_duas_tail (l : list Dua) : string :=
  match l with
  | [] => ""
  | d :: rest => "," +:+ print_dua d +:+ print_duas_tail rest
  end.

Definition print_duas (l : list Dua) : string :=
  match l with
  | [] => "[]"
  | d :: rest => "[" +:+ print_dua d +:+ print_duas_tail rest +:+ "]"
  end.

Definition recognize {A} (print : A -> string) (known : list A)
  (text : string) : option A :=
  List.find (fun v => String.eqb (print v) text) known.

Definition morning : Subcategory :=
  {| sc_id := "12"; sc_category_id := "3"; sc_name := "Morning";
     sc_description := "Duas for the morning" |}.

Definition morning2 : Subcategory :=
  {| sc_id := "12"; sc_category_id := "3"; sc_name := "Morning (revised)";
     sc_description := "Duas for the morning" |}.

Definition dua1 : Dua :=
  {| id := "101"; subcategory_id := "12"; name := "Upon waking";
     arabic_text := "..."; reference := "Bukhari";
     description := "Said on waking up"; translation := "All praise";
     urdu_translation := None; count := Some "1";
     audio_path := Some "/audio/101.mp3" |}.

Definition dua2 : Dua :=
  {| id := "102"; subcategory_id := "12"; name := "Morning remembrance";
     arabic_text := "..."; reference := "Muslim";
     description := "Said in the morning"; translation := "We have reached";
     urdu_translation := None; count := None; audio_path := None |}.

Definition json_subcategory : Json Subcategory :=
  {| JSON_parse := recognize print_subcategory [morning; morning2];
     JSON_stringify := print_subcategory |}.

Definition json_duas : Json (list Dua) :=
  {| JSON_parse := recognize print_duas [[dua1; dua2]; [dua1]; []];
     JSON_stringify := print_duas |}.

Definition api : string := "https://api.example.org".

Definition respond (text : string) : Response := {| ok := true; body := text |}.

(** A remote that serves [s] and [d] for subcategory 12. *)
Definition serving (s : Subcategory) (d : list Dua) (url : string)
  : option Response :=
  if String.eqb url "https://api.example.org/api/subcategories/12"
  then Some (respond (print_subcategory s))
  else if String.eqb url "https://api.example.org/api/duas/subcategory/12"
  then Some (respond (print_duas d))
  else None.

(** A remote that serves [s] but answers the request for the duas with
    a status that is not ok. *)
Definition serving_metadata_only (s : Subcategory) (url : string)
  : option Response :=
  if String.eqb url "https://api.example.org/api/subcategories/12"
  then Some (respond (print_subcategory s))
  else if String.eqb url "https://api.example.org/api/duas/subcategory/12"
  then Some {| ok := false; body := "Internal Server Error" |}
  else None.

Definition never (_ : string) : bool := false.
Definition always (_ : string) : bool := true.

(** Online, with a working store. *)
Definition online (s : Subcategory) (d : list Dua) : Env :=
  {| isConnected := true; fetch := serving s d;
     getItem_rejects := never; setItem_rejects := never |}.

(** Offline, with a working store. *)
Definition offline : Env :=
  {| isConnected := false; fetch := fun _ => None;
     getItem_rejects := never; setItem_rejects := never |}.

(** Online, but every request rejects. *)
Definition unreachable_server : Env :=
  {| isConnected := true; fetch := fun _ => None;
     getItem_rejects := never; setItem_rejects := never |}.

(** Online, but the request for the duas fails. *)
Definition online_items_failing (s : Subcategory) : Env :=
  {| isConnected := true; fetch := serving_metadata_only s;
     getItem_rejects := never; setItem_rejects := never |}.

(** Online, but the store rejects every write. *)
Definition online_store_full (s : Subcategory) (d : list Dua) : Env :=
  {| isConnected := true; fetch := serving s d;
     getItem_rejects := never; setItem_rejects := always |}.

(** Online, but the store rejects every read. *)
Definition online_store_unreadable (s : Subcategory) (d : list Dua) : Env :=
  {| isConnected := true; fetch := serving s d;
     getItem_rejects := always; setItem_rejects := never |}.

(** A freshly mounted screen over an empty store. *)
Definition fresh_install : World := {| store := ∅; ui := initialUI |}.

(** A freshly mounted screen over a store that holds the bundle of
    subcategory 12 under the keys of the automatic load. *)
Definition with_cache (s : Subcategory) (d : list Dua) : World :=
  {| store := <["duas_12_cache" := print_duas d]>
                (<["subcategory_12_cache" := print_subcategory s]> ∅);
     ui := initialUI |}.

(** The same store with a damaged subcategory item. *)
Definition with_damaged_cache : World :=
  {| store := <["duas_12_cache" := print_duas [dua1]]>
                (<["subcategory_12_cache" := "{oops"]> ∅);
     ui := initialUI |}.

End Sample.

(** ** The other functions of DuaScreen

    The time formatter, the texts that are copied and shared, and the
    handlers of the card buttons and of the player.  The handlers run in
    a monad of their own, whose exceptions carry the thrown value, since
    the favourite handler picks its message from it. *)

(** *** Numbers and texts *)

(** A JavaScript number that holds an integer, or [NaN] ([parseInt]
    answers [NaN] where it finds no digits). *)
Inductive number :=
| Int (z : Z)
| NaN.

(** The number as a template literal prints it. *)
Definition number_toString (n : number) : string :=
  match n with
  | Int z => pretty z
  | NaN => "NaN"
  end.

(** [n] copies of one character. *)
Fixpoint fill (n : nat) (pad : Ascii.ascii) : string :=
  match n with
  | O => EmptyString
  | S m => String pad (fill m pad)
  end.

(** [s.padStart(targetLength, pad)] for a pad of one character. *)
Definition padStart (s : string) (targetLength : nat) (pad : Ascii.ascii)
  : string :=
  fill (targetLength - String.length s) pad +:+ s.

(** [Number.MAX_SAFE_INTEGER], the largest whole number below which
    every whole number is a double. *)
Definition MAX_SAFE_INTEGER : Z := 9007199254740991.

(** The whole numbers on which the arithmetic of [formatTime] is
    modelled. *)
Definition safe_integer (z : Z) : Prop := (0 ≤ z ≤ MAX_SAFE_INTEGER)%Z.

(** [formatTime], on a whole number of milliseconds from 0 to
    [MAX_SAFE_INTEGER].  There the doubles of the source compute what
    the integers compute here: the quotient by 1000 is rounded by less
    than 2^-10, which is less than the 1/1000 that separates it from the
    next whole number, so [Math.floor] of it is the floor division; the
    quotient by 60 and [%] are then taken on whole numbers below 2^44;
    and the template literal prints minutes and seconds in decimal
    digits, as every whole number below 10^21.  Beyond this range the
    source rounds and, from 10^21 minutes on, prints an exponent: the
    definition does not describe it there. *)
Definition formatTime (milliseconds : Z) : string :=
  let totalSeconds := (milliseconds `div` 1000)%Z in
  let minutes := (totalSeconds `div` 60)%Z in
  let seconds := (totalSeconds `rem` 60)%Z in
  pretty minutes +:+ ":" +:+ padStart (pretty seconds) 2 (Ascii.ascii_of_nat 48).

(** The seconds of a minute as [formatTime] prints them. *)
Definition padded_second (s : Z) : string :=
  padStart (pretty s) 2 (Ascii.ascii_of_nat 48).

(** The line feed of the templates. *)
Definition LF : string := String (Ascii.ascii_of_nat 10) EmptyString.

(** [dua.urdu_translation ? dua.urdu_translation + LF LF : empty] *)
Definition urdu_paragraph (dua : Dua) : string :=
  match urdu_translation dua with
  | Some u => if truthy u then u +:+ LF +:+ LF else ""
  | None => ""
  end.

(** The template of [copyToClipboard]. *)
Definition textToCopy (dua : Dua) : string :=
  arabic_text dua +:+ LF +:+ LF +:+ translation dua +:+ LF +:+ LF +:+
  urdu_paragraph dua +:+ "Reference: " +:+ reference dua.

(** The template of [handleTextShare]. *)
Definition textToShare (dua : Dua) : string :=
  name dua +:+ LF +:+ LF +:+ arabic_text dua +:+ LF +:+ LF +:+
  translation dua +:+ LF +:+ LF +:+ urdu_paragraph dua +:+
  "Reference: " +:+ reference dua +:+ LF +:+ LF +:+ "Shared from Duaon AI".

(** *** The state of the screen and the outside world *)

Inductive ToastType :=
| toast_success
| toast_error
| toast_warning.

(** What a rejected promise carries, as far as the handlers look at it:
    an axios error with its optional response, or any other value, with
    its [message] (empty when it has none). *)
Record AxiosResponse := {
  status : Z;
  data_error : option string
}.

Inductive Thrown :=
| AxiosError (response : option AxiosResponse)
| OtherError (message : string).

(** The two animated values of the toast. *)
Inductive Anim :=
| fadeAnim
| slideAnim.

(** The calls the handlers make on the platform, in the order they make
    them. *)
Inductive Effect :=
| axios_delete_call (url authorization : string)
| axios_post_call (url : string) (duaId subcategoryId : number)
    (authorization : string)
| checkFavorite_call (duaId : string)
| router_push_after (path : string) (delay : Z)
| hide_toast_after (delay : Z)
| Animated_setValue (a : Anim) (value : Z)
| Animated_parallel_start (timings : list (Anim * Z * Z))
| Clipboard_setString (text : string)
| wait (delay : Z)
| Sharing_isAvailable_call
| captureRef_call (duaId : string)
| Sharing_shareAsync_call (uri dialogTitle : string)
| Share_share_call (message title : string)
| Sound_createAsync_call (audioSource : Z)
| Sound_pauseAsync (sound : Z)
| Sound_playAsync (sound : Z)
| Sound_setPositionAsync (sound : Z) (position : Z)
| Sound_unloadAsync (sound : Z).

(** How the platform answers one run of a handler: [Some e] and [inl e]
    are rejections with [e]. *)
Record Services := {
  getItem_error : string -> option Thrown;
  axios_delete : string -> string -> option Thrown;
  axios_post : string -> number -> number -> string -> option Thrown;
  checkFavorite : string -> Thrown + bool;
  Sharing_isAvailableAsync : Thrown + bool;
  captureRef : string -> Thrown + string;
  Sharing_shareAsync : string -> string -> option Thrown;
  Share_share : string -> string -> option Thrown;
  Sound_createAsync : Z -> option Thrown;
  Sound_pause : Z -> option Thrown;
  Sound_play : Z -> option Thrown;
  Sound_setPosition : Z -> Z -> option Thrown;
  Sound_unload : Z -> option Thrown
}.

(** The player state: the loaded sound (named by its source) and the
    four values the status callback keeps. *)
Record Player := {
  sound : option Z;
  isPlaying : bool;
  isLoading : bool;
  playbackPosition : Z;
  playbackDuration : Z
}.

Record Toast := {
  showToast : bool;
  toastMessage : string;
  toastType : ToastType
}.

(** The state of the screen beside the loaded bundle, the ids that have
    a mounted card ([viewShotRefs.current]), and the record of the calls
    made and of the console. *)
Record Screen := {
  page : World;
  player : Player;
  isFavorite : bool;
  favLoading : bool;
  toast : Toast;
  isSharing : bool;
  viewShotRefs : gset string;
  effects : list Effect;
  logs : list string
}.

(** The screen as it is mounted over a world. *)
Definition mounted (w : World) : Screen :=
  {| page := w;
     player := {| sound := None; isPlaying := false; isLoading := false;
                  playbackPosition := 0; playbackDuration := 0 |};
     isFavorite := false; favLoading := false;
     toast := {| showToast := false; toastMessage := "";
                 toastType := toast_success |};
     isSharing := false; viewShotRefs := ∅; effects := []; logs := [] |}.

(** *** The monad of a handler *)

Inductive Step (A : Type) :=
| Returned (a : A)
| Threw (e : Thrown).
Arguments Returned {A} a.
Arguments Threw {A} e.

Definition Task (A : Type) : Type := Screen -> Step A * Screen.

#[global] Instance Task_ret : MRet Task :=
  fun A a s => (Returned a, s).

#[global] Instance Task_bind : MBind Task :=
  fun A B k m s =>
    match m s with
    | (Returned a, s') => k a s'
    | (Threw e, s') => (Threw e, s')
    end.

Definition raise {A} (e : Thrown) : Task A := fun s => (Threw e, s).

(** [try { body } catch (error) { handler }] *)
Definition catching {A} (body : Task A) (handler : Thrown -> Task A)
  : Task A :=
  fun s =>
    match body s with
    | (Returned a, s') => (Returned a, s')
    | (Threw e, s') => handler e s'
    end.

(** [try { body } finally { final }] *)
Definition finally_do {A} (body : Task A) (final : Task unit) : Task A :=
  fun s =>
    match body s with
    | (r, s') =>
        match final s' with
        | (Returned _, s'') => (r, s'')
        | (Threw e, s'') => (Threw e, s'')
        end
    end.

Definition nothing : Task unit := mret tt.

(** [await] of a call that resolves with nothing, resp. with a value. *)
Definition await_done (answer : option Thrown) : Task unit :=
  match answer with
  | None => mret tt
  | Some e => raise e
  end.

Definition await_value {A} (answer : Thrown + A) : Task A :=
  match answer with
  | inr a => mret a
  | inl e => raise e
  end.

Definition update (g : Screen -> Screen) : Task unit :=
  fun s => (Returned tt, g s).

Definition perform (e : Effect) : Task unit :=
  update (fun s =>
    {| page := page s; player := player s; isFavorite := isFavorite s;
       favLoading := favLoading s; toast := toast s;
       isSharing := isSharing s; viewShotRefs := viewShotRefs s;
       effects := effects s ++ [e]; logs := logs s |}).

Definition console_message (msg : string) : Task unit :=
  update (fun s =>
    {| page := page s; player := player s; isFavorite := isFavorite s;
       favLoading := favLoading s; toast := toast s;
       isSharing := isSharing s; viewShotRefs := viewShotRefs s;
       effects := effects s; logs := logs s ++ [msg] |}).

Definition update_player (g : Player -> Player) : Task unit :=
  update (fun s =>
    {| page := page s; player := g (player s); isFavorite := isFavorite s;
       favLoading := favLoading s; toast := toast s;
       isSharing := isSharing s; viewShotRefs := viewShotRefs s;
       effects := effects s; logs := logs s |}).

Definition update_toast (g : Toast -> Toast) : Task unit :=
  update (fun s =>
    {| page := page s; player := player s; isFavorite := isFavorite s;
       favLoading := favLoading s; toast := g (toast s);
       isSharing := isSharing s; viewShotRefs := viewShotRefs s;
       effects := effects s; logs := logs s |}).

(** The setters. *)
Definition setIsFavorite (v : bool) : Task unit :=
  update (fun s =>
    {| page := page s; player := player s; isFavorite := v;
       favLoading := favLoading s; toast := toast s;
       isSharing := isSharing s; viewShotRefs := viewShotRefs s;
       effects := effects s; logs := logs s |}).

Definition setFavLoading (v : bool) : Task unit :=
  update (fun s =>
    {| page := page s; player := player s; isFavorite := isFavorite s;
       favLoading := v; toast := toast s;
       isSharing := isSharing s; viewShotRefs := viewShotRefs s;
       effects := effects s; logs := logs s |}).

Definition setIsSharing (v : bool) : Task unit :=
  update (fun s =>
    {| page := page s; player := player s; isFavorite := isFavorite s;
       favLoading := favLoading s; toast := toast s;
       isSharing := v; viewShotRefs := viewShotRefs s;
       effects := effects s; logs := logs s |}).

Definition setToastMessage (v : string) : Task unit :=
  update_toast (fun t =>
    {| showToast := showToast t; toastMessage := v;
       toastType := toastType t |}).

Definition setToastType (v : ToastType) : Task unit :=
  update_toast (fun t =>
    {| showToast := showToast t; toastMessage := toastMessage t;
       toastType := v |}).

Definition setShowToast (v : bool) : Task unit :=
  update_toast (fun t =>
    {| showToast := v; toastMessage := toastMessage t;
       toastType := toastType t |}).

Definition setSound (v : option Z) : Task unit :=
  update_player (fun p =>
    {| sound := v; isPlaying := isPlaying p; isLoading := isLoading p;
       playbackPosition := playbackPosition p;
       playbackDuration := playbackDuration p |}).

Definition setIsPlaying (v : bool) : Task unit :=
  update_player (fun p =>
    {| sound := sound p; isPlaying := v; isLoading := isLoading p;
       playbackPosition := playbackPosition p;
       playbackDuration := playbackDuration p |}).

Definition setIsLoading (v : bool) : Task unit :=
  update_player (fun p =>
    {| sound := sound p; isPlaying := isPlaying p; isLoading := v;
       playbackPosition := playbackPosition p;
       playbackDuration := playbackDuration p |}).

Definition setPlaybackPosition (v : Z) : Task unit :=
  update_player (fun p =>
    {| sound := sound p; isPlaying := isPlaying p; isLoading := isLoading p;
       playbackPosition := v;
       playbackDuration := playbackDuration p |}).

Definition setPlaybackDuration (v : Z) : Task unit :=
  update_player (fun p =>
    {| sound := sound p; isPlaying := isPlaying p; isLoading := isLoading p;
       playbackPosition := playbackPosition p;
       playbackDuration := v |}).

(** [AsyncStorage.getItem(key)], with the value its rejection carries. *)
Definition storage_getItem (svc : Services) (key : string)
  : Task (option string) :=
  fun s =>
    match getItem_error svc key with
    | Some e => (Threw e, s)
    | None => (Returned (store (page s) !! key), s)
    end.

(** *** The handlers *)

(** [showToastMessage]: the three setters, the slide-in animation and
    the timer that hides the toast, later for an error. *)
Definition showToastMessage (message : string) (type : ToastType)
  : Task unit :=
  setToastMessage message ;;
  setToastType type ;;
  setShowToast true ;;
  perform (Animated_setValue slideAnim 50) ;;
  perform (Animated_setValue fadeAnim 0) ;;
  perform (Animated_parallel_start [(fadeAnim, 1, 300); (slideAnim, 0, 300)]%Z) ;;
  perform (hide_toast_after
             (match type with
              | toast_error => 3000%Z
              | _ => 2000%Z
              end)).

(** The calls [showToastMessage] makes, in order. *)
Definition toast_calls (type : ToastType) : list Effect :=
  [Animated_setValue slideAnim 50; Animated_setValue fadeAnim 0;
   Animated_parallel_start [(fadeAnim, 1, 300); (slideAnim, 0, 300)]%Z;
   hide_toast_after
     (match type with
      | toast_error => 3000%Z
      | _ => 2000%Z
      end)].

(** The toast as [showToastMessage] leaves it. *)
Definition shown_toast (message : string) (type : ToastType) : Toast :=
  {| showToast := true; toastMessage := message; toastType := type |}.

(** The callback of that timer, and the callback of its animation. *)
Definition hideToast : Task unit :=
  perform (Animated_parallel_start [(fadeAnim, 0, 300); (slideAnim, 50, 300)]%Z).

Definition onToastHidden : Task unit := setShowToast false.

(** The message the [catch] of [handleFavoriteToggle] picks. *)
Definition favoriteErrorMessage (e : Thrown) : string :=
  match e with
  | AxiosError response =>
      match response with
      | Some r =>
          if bool_decide (status r = 429%Z) then
            "Too many requests. Please try again later."
          else
            match data_error r with
            | Some message =>
                if truthy message then message
                else "Failed to update favorite status"
            | None => "Failed to update favorite status"
            end
      | None => "Failed to update favorite status"
      end
  | OtherError message =>
      if truthy message then message
      else "Failed to update favorite status"
  end.

(** [copyToClipboard] *)
Definition copyToClipboard (dua : Dua) : Task unit :=
  perform (Clipboard_setString (textToCopy dua)) ;;
  showToastMessage "Dua copied to clipboard" toast_success.

(** The status a sound reports to its callback. *)
Record PlaybackStatus := {
  isLoaded : bool;
  positionMillis : Z;
  durationMillis : option Z;
  status_isPlaying : bool;
  didJustFinish : bool
}.

(** [status.durationMillis || 0] *)
Definition duration_or_0 (st : PlaybackStatus) : Z :=
  match durationMillis st with
  | Some d => d
  | None => 0
  end.

(** The callback given to [setOnPlaybackStatusUpdate]. *)
Definition onPlaybackStatusUpdate (st : PlaybackStatus) : Task unit :=
  if isLoaded st then
    setPlaybackPosition (positionMillis st) ;;
    setPlaybackDuration (duration_or_0 st) ;;
    setIsPlaying (status_isPlaying st) ;;
    if didJustFinish st then
      setIsPlaying false ;;
      setPlaybackPosition (duration_or_0 st)
    else nothing
  else nothing.

Section Handlers.
(** [API_URL] comes from the configuration module of the app and
    [parseInt] from the platform. *)
Variable API_URL : string.
Variable parseInt : string -> number.

(** A handler is a closure of the render it belongs to: what it reads
    of the state is what that render saw, [seen]; what it sets goes to
    the state. *)

(** [handleFavoriteToggle] *)
Definition handleFavoriteToggle (svc : Services) (subcategoryId : string)
    (seen : Screen) : Task unit :=
  match subcategoryDuas (ui (page seen)) with
  | [] => nothing
  | dua :: _ =>
      finally_do
        (catching
           (token ← storage_getItem svc "token";
            match token with
            | Some tok =>
                if truthy tok then
                  let duaId := parseInt (id dua) in
                  let subcatId := parseInt subcategoryId in
                  console_message "Favoriting - duaId:" ;;
                  setFavLoading true ;;
                  if isFavorite seen then
                    perform (axios_delete_call
                               (API_URL +:+ "/api/favorites/" +:+
                                number_toString duaId)
                               ("Bearer " +:+ tok)) ;;
                    await_done (axios_delete svc
                                  (API_URL +:+ "/api/favorites/" +:+
                                   number_toString duaId)
                                  ("Bearer " +:+ tok)) ;;
                    setIsFavorite false ;;
                    showToastMessage "Removed from favorites" toast_success
                  else
                    perform (axios_post_call (API_URL +:+ "/api/favorites")
                               duaId subcatId ("Bearer " +:+ tok)) ;;
                    await_done (axios_post svc (API_URL +:+ "/api/favorites")
                                  duaId subcatId ("Bearer " +:+ tok)) ;;
                    setIsFavorite true ;;
                    showToastMessage "Added to favorites" toast_success
                else
                  showToastMessage "Please log in to save favorites"
                    toast_warning ;;
                  perform (router_push_after "/login" 2000%Z)
            | None =>
                showToastMessage "Please log in to save favorites"
                  toast_warning ;;
                perform (router_push_after "/login" 2000%Z)
            end)
           (fun thrown =>
              console_message "Error toggling favorite:" ;;
              (match thrown with
               | AxiosError _ =>
                   console_message "Error status:" ;;
                   console_message "Error data:"
               | OtherError _ => nothing
               end) ;;
              showToastMessage (favoriteErrorMessage thrown) toast_error))
        (setFavLoading false)
  end.

(** [checkFavoriteStatus], the effect that follows the list. *)
Definition checkFavoriteStatus (svc : Services) (seen : Screen) : Task unit :=
  match subcategoryDuas (ui (page seen)) with
  | [] => nothing
  | first :: _ =>
      finally_do
        (catching
           (token ← storage_getItem svc "token";
            if truthy_opt token then
              setFavLoading true ;;
              perform (checkFavorite_call (id first)) ;;
              answer ← await_value (checkFavorite svc (id first));
              setIsFavorite answer
            else nothing)
           (fun _ => console_message "Error checking favorite status:"))
        (setFavLoading false)
  end.

(** [handleShare] *)
Definition handleShare (svc : Services) (dua : Dua) (index : nat)
  : Task unit :=
  catching
    (setIsSharing true ;;
     perform (wait 300%Z) ;;
     perform Sharing_isAvailable_call ;;
     isAvailable ← await_value (Sharing_isAvailableAsync svc);
     if negb isAvailable then
       showToastMessage "Sharing is not available on this device"
         toast_error ;;
       setIsSharing false
     else
       fun s =>
         (if bool_decide (id dua ∈ viewShotRefs s) then
            console_message "Capturing viewShot for dua:" ;;
            perform (captureRef_call (id dua)) ;;
            uri ← await_value (captureRef svc (id dua));
            console_message "Captured URI:" ;;
            setIsSharing false ;;
            if truthy uri then
              catching
                (perform (Sharing_shareAsync_call uri (name dua)) ;;
                 await_done (Sharing_shareAsync svc uri (name dua)) ;;
                 console_message "Shared successfully")
                (fun _ =>
                   console_message "Error during share:" ;;
                   showToastMessage "Error sharing image" toast_error)
            else
              console_message "No URI captured" ;;
              showToastMessage "Failed to capture image" toast_error
          else
            console_message "ViewShot ref not found for dua:" ;;
            setIsSharing false ;;
            showToastMessage "Failed to capture dua card" toast_error) s)
    (fun _ =>
       setIsSharing false ;;
       console_message "Error sharing dua:" ;;
       showToastMessage "Error sharing dua" toast_error).

(** [handleTextShare] *)
Definition handleTextShare (svc : Services) (dua : Dua) : Task unit :=
  catching
    (perform (Share_share_call (textToShare dua) (name dua)) ;;
     await_done (Share_share svc (textToShare dua) (name dua)) ;;
     console_message "Text shared successfully")
    (fun _ =>
       console_message "Error sharing text:" ;;
       showToastMessage "Error sharing dua text" toast_error).

(** [playSound] *)
Definition playSound (svc : Services) (audioSource : Z) (seen : Screen)
  : Task unit :=
  catching
    (match sound (player seen) with
     | Some current =>
         if isPlaying (player seen) then
           perform (Sound_pauseAsync current) ;;
           await_done (Sound_pause svc current) ;;
           setIsPlaying false
         else
           (if bool_decide (playbackDuration (player seen)
                            ≤ playbackPosition (player seen))%Z
            then
              perform (Sound_setPositionAsync current 0%Z) ;;
              await_done (Sound_setPosition svc current 0%Z)
            else nothing) ;;
           perform (Sound_playAsync current) ;;
           await_done (Sound_play svc current) ;;
           setIsPlaying true
     | None =>
         setIsLoading true ;;
         perform (Sound_createAsync_call audioSource) ;;
         await_done (Sound_createAsync svc audioSource) ;;
         setSound (Some audioSource) ;;
         perform (Sound_playAsync audioSource) ;;
         await_done (Sound_play svc audioSource) ;;
         setIsPlaying true ;;
         setIsLoading false
     end)
    (fun _ =>
       console_message "Error playing sound:" ;;
       setIsLoading false ;;
       match sound (player seen) with
       | Some current =>
           perform (Sound_unloadAsync current) ;;
           await_done (Sound_unload svc current) ;;
           setSound None
       | None => nothing
       end).

(** What the four buttons of a card do when pressed
    ([renderActionButtons]): the favourite button is given the handler
    of the screen, not the card, and is disabled while [favLoading]. *)
Inductive Button :=
| copy_button
| share_button
| text_button
| favorite_button.

Definition press (svc : Services) (subcategoryId : string) (dua : Dua)
    (index : nat) (b : Button) (seen : Screen) : Task unit :=
  match b with
  | copy_button => copyToClipboard dua
  | share_button => handleShare svc dua index
  | text_button => handleTextShare svc dua
  | favorite_button =>
      if favLoading seen then nothing
      else handleFavoriteToggle svc subcategoryId seen
  end.

(** A handler run on the screen it was rendered for. *)
Definition after (h : Screen -> Task unit) (s : Screen) : Screen :=
  snd (h s s).

End Handlers.

(** The share of a card goes through: sharing is available, the card
    is mounted, the capture gives a file and the share sheet resolves. *)
Definition share_goes_through (svc : Services) (dua : Dua) (s : Screen)
  : Prop :=
  Sharing_isAvailableAsync svc = inr true /\
  id dua ∈ viewShotRefs s /\
  exists uri,
    captureRef svc (id dua) = inr uri /\ truthy uri = true /\
    Sharing_shareAsync svc uri (name dua) = None.

(** *** Sample screens and platforms *)

Module SampleScreen.
Import Sample.

(** [parseInt] on the ids of the sample data. *)
Definition parse_int (text : string) : number :=
  if String.eqb text "101" then Int 101
  else if String.eqb text "102" then Int 102
  else if String.eqb text "12" then Int 12
  else NaN.

(** A platform on which every call resolves. *)
Definition obliging : Services :=
  {| getItem_error := fun _ => None;
     axios_delete := fun _ _ => None;
     axios_post := fun _ _ _ _ => None;
     checkFavorite := fun _ => inr true;
     Sharing_isAvailableAsync := inr true;
     captureRef := fun _ => inr "file:///cache/card.jpg";
     Sharing_shareAsync := fun _ _ => None;
     Share_share := fun _ _ => None;
     Sound_createAsync := fun _ => None;
     Sound_pause := fun _ => None;
     Sound_play := fun _ => None;
     Sound_setPosition := fun _ _ => None;
     Sound_unload := fun _ => None |}.

(** The server answers the favourite requests with status 429. *)
Definition rate_limited : Services :=
  {| getItem_error := fun _ => None;
     axios_delete := fun _ _ =>
       Some (AxiosError
               (Some {| status := 429; data_error := Some "Slow down" |}));
     axios_post := fun _ _ _ _ =>
       Some (AxiosError
               (Some {| status := 429; data_error := Some "Slow down" |}));
     checkFavorite := fun _ => inr true;
     Sharing_isAvailableAsync := inr true;
     captureRef := fun _ => inr "file:///cache/card.jpg";
     Sharing_shareAsync := fun _ _ => None;
     Share_share := fun _ _ => None;
     Sound_createAsync := fun _ => None;
     Sound_pause := fun _ => None;
     Sound_play := fun _ => None;
     Sound_setPosition := fun _ _ => None;
     Sound_unload := fun _ => None |}.

(** A player that creates sounds and rejects every command but the
    unload. *)
Definition stubborn_player : Services :=
  {| getItem_error := fun _ => None;
     axios_delete := fun _ _ => None;
     axios_post := fun _ _ _ _ => None;
     checkFavorite := fun _ => inr true;
     Sharing_isAvailableAsync := inr true;
     captureRef := fun _ => inr "file:///cache/card.jpg";
     Sharing_shareAsync := fun _ _ => None;
     Share_share := fun _ _ => None;
     Sound_createAsync := fun _ => None;
     Sound_pause := fun _ => Some (OtherError "Player is busy");
     Sound_play := fun _ => Some (OtherError "Player is busy");
     Sound_setPosition := fun _ _ => Some (OtherError "Player is busy");
     Sound_unload := fun _ => None |}.

(** A device without a share sheet. *)
Definition no_sharing : Services :=
  {| getItem_error := fun _ => None;
     axios_delete := fun _ _ => None;
     axios_post := fun _ _ _ _ => None;
     checkFavorite := fun _ => inr true;
     Sharing_isAvailableAsync := inr false;
     captureRef := fun _ => inr "file:///cache/card.jpg";
     Sharing_shareAsync := fun _ _ => None;
     Share_share := fun _ _ => Some (OtherError "User did not share");
     Sound_createAsync := fun _ => None;
     Sound_pause := fun _ => None;
     Sound_play := fun _ => None;
     Sound_setPosition := fun _ _ => None;
     Sound_unload := fun _ => None |}.

(** The screen of subcategory 12 with its two duas loaded and both cards
    mounted, over a store with or without a login token. *)
Definition loaded_page (st : gmap string string) : World :=
  {| store := st;
     ui := {| subcategory := Some morning; subcategoryDuas := [dua1; dua2];
              loading := false; error := None; soundObjects := {[ 0 ]} |} |}.

Definition screen_over (st : gmap string string) : Screen :=
  {| page := loaded_page st;
     player := {| sound := None; isPlaying := false; isLoading := false;
                  playbackPosition := 0; playbackDuration := 0 |};
     isFavorite := false; favLoading := false;
     toast := {| showToast := false; toastMessage := "";
                 toastType := toast_success |};
     isSharing := false; viewShotRefs := {[ "101"; "102" ]};
     effects := []; logs := [] |}.

Definition logged_in : Screen := screen_over {[ "token" := "secret" ]}.

Definition logged_out : Screen := screen_over ∅.

(** The same screen before the list has arrived. *)
Definition unloaded : Screen := mounted fresh_install.

(** The logged-in screen with a sound loaded from source 7, paused at
    [position] of [duration], resp. playing. *)
Definition paused_at (position duration : Z) : Screen :=
  {| page := loaded_page {[ "token" := "secret" ]};
     player := {| sound := Some 7%Z; isPlaying := false; isLoading := false;
                  playbackPosition := position;
                  playbackDuration := duration |};
     isFavorite := false; favLoading := false;
     toast := {| showToast := false; toastMessage := "";
                 toastType := toast_success |};
     isSharing := false; viewShotRefs := {[ "101"; "102" ]};
     effects := []; logs := [] |}.

Definition playing_at (position duration : Z) : Screen :=
  {| page := loaded_page {[ "token" := "secret" ]};
     player := {| sound := Some 7%Z; isPlaying := true; isLoading := false;
                  playbackPosition := position;
                  playbackDuration := duration |};
     isFavorite := false; favLoading := false;
     toast := {| showToast := false; toastMessage := "";
                 toastType := toast_success |};
     isSharing := false; viewShotRefs := {[ "101"; "102" ]};
     effects := []; logs := [] |}.


End SampleScreen.

(** ** The loading code *)

Section Loader.
(** [API_URL] comes from the configuration module of the app. *)
Variable API_URL : string.
Context {Json_Subcategory : Json Subcategory}.
Context {Json_Duas : Json (list Dua)}.

(** The two endpoints. *)
Definition subcategory_url (subcategoryId : string) : string :=
  API_URL +:+ "/api/subcategories/" +:+ subcategoryId.

Definition duas_url (subcategoryId : string) : string :=
  API_URL +:+ "/api/duas/subcategory/" +:+ subcategoryId.

(** The store keys of [fetchData]. *)
Definition subcategory_cache_key (subcategoryId : string) : string :=
  "subcategory_" +:+ subcategoryId +:+ "_cache".

Definition duas_cache_key (subcategoryId : string) : string :=
  "duas_" +:+ subcategoryId +:+ "_cache".

(** The store keys of the Retry handler. *)
Definition subcategory_retry_key (subcategoryId : string) : string :=
  "subcategory_" +:+ subcategoryId.

Definition duas_retry_key (subcategoryId : string) : string :=
  "duas_" +:+ subcategoryId.

(** The loop that prepares the audio objects: index [i] gets a sound
    when [duasData[i].audio_path] is truthy. *)
Fixpoint initialSoundObjects (i : nat) (duas : list Dua) : gset nat :=
  match duas with
  | [] => ∅
  | d :: rest =>
      (if truthy_opt (audio_path d) then {[ i ]} else ∅)
        ∪ initialSoundObjects (S i) rest
  end.

(** The cache read of [fetchData]: both items are read, and when both
    are truthy they are parsed and shown. *)
Definition loadFromCache (env : Env) (subcategoryId : string)
  : Async Locals unit :=
  cachedSubcategory ←
    AsyncStorage_getItem env (subcategory_cache_key subcategoryId);
  cachedDuas ← AsyncStorage_getItem env (duas_cache_key subcategoryId);
  match cachedSubcategory, cachedDuas with
  | Some cs, Some cd =>
      if truthy cs && truthy cd then
        s ← parse cs;
        set_subcategoryData s ;;
        d ← parse cd;
        set_duasData d ;;
        setSubcategory s ;;
        setSubcategoryDuas d ;;
        set_fromCache true ;;
        console_log "Loaded dua data from cache"
      else skip
  | _, _ => skip
  end.

(** The body of the inner [try] of [fetchData]. *)
Definition fetchFromNetwork (env : Env) (subcategoryId : string)
  : Async Locals unit :=
  subcategoryResponse ← do_fetch env (subcategory_url subcategoryId);
  if ok subcategoryResponse then
    s ← json subcategoryResponse;
    set_subcategoryData s ;;
    duasResponse ← do_fetch env (duas_url subcategoryId);
    if ok duasResponse then
      d ← json duasResponse;
      set_duasData d ;;
      AsyncStorage_setItem env (subcategory_cache_key subcategoryId)
        (JSON_stringify s) ;;
      AsyncStorage_setItem env (duas_cache_key subcategoryId)
        (JSON_stringify d) ;;
      cached ← read_var fromCache;
      (if negb cached then
         setSubcategory s ;;
         setSubcategoryDuas d
       else skip) ;;
      console_log "Successfully fetched fresh data from network"
    else skip
  else skip.

(** The [catch] of the inner [try]. *)
Definition onNetworkError : Async Locals unit :=
  console_log "Network error (silent):" ;;
  cached ← read_var fromCache;
  if negb cached then
    console_log "No cached data available and network failed"
  else skip.

(** The audio set-up after the two sources were tried. *)
Definition setUpAudio : Async Locals unit :=
  data ← read_var duasData;
  match data with
  | Some duas =>
      if bool_decide (0 < length duas) then
        setSoundObjects (initialSoundObjects 0 duas)
      else skip
  | None => skip
  end.

(** [fetchData], the effect of DuaScreen. *)
Definition fetchData (env : Env) (subcategoryId : string)
  : Async Locals unit :=
  setLoading true ;;
  setError None ;;
  if negb (truthy subcategoryId) then
    setError (Some "No subcategory ID found") ;;
    setLoading false
  else
    try_finally
      (try_catch
         (netInfo ← NetInfo_fetch env;
          loadFromCache env subcategoryId ;;
          (if netInfo : bool then
             try_catch (fetchFromNetwork env subcategoryId) onNetworkError
           else
             cached ← read_var fromCache;
             if negb cached then
               setError (Some
                 "No internet connection and no cached data available. Please connect to the internet and try again.")
             else skip) ;;
          setUpAudio)
         (console_log "Error fetching data:" ;;
          setError (Some "Failed to load duas. Please try again later.")))
      (setLoading false).

(** The [onPress] handler of the Retry button. *)
Definition retry_onPress (env : Env) (subcategoryId : string)
  : Async unit unit :=
  setLoading true ;;
  setError (Some "") ;;
  try_catch
    (subcategoryResponse ← do_fetch env (subcategory_url subcategoryId);
     (if negb (ok subcategoryResponse) then throw else skip) ;;
     s ← json subcategoryResponse;
     duasResponse ← do_fetch env (duas_url subcategoryId);
     (if negb (ok duasResponse) then throw else skip) ;;
     d ← json duasResponse;
     AsyncStorage_setItem env (subcategory_retry_key subcategoryId)
       (JSON_stringify s) ;;
     AsyncStorage_setItem env (duas_retry_key subcategoryId)
       (JSON_stringify d) ;;
     setSubcategory s ;;
     setSubcategoryDuas d ;;
     setLoading false)
    (console_log "Network error in retry, trying cache:" ;;
     try_catch
       (cachedSubcategory ←
          AsyncStorage_getItem env (subcategory_retry_key subcategoryId);
        cachedDuas ←
          AsyncStorage_getItem env (duas_retry_key subcategoryId);
        match cachedSubcategory, cachedDuas with
        | Some cs, Some cd =>
            if truthy cs && truthy cd then
              s ← parse cs;
              setSubcategory s ;;
              d ← parse cd;
              setSubcategoryDuas d
            else
              setError (Some
                "No internet connection and no cached data available.")
        | _, _ =>
            setError (Some
              "No internet connection and no cached data available.")
        end)
       (setError (Some
          "Failed to load data. Please check your connection and try again.")) ;;
     setLoading false).

(** Running an async function from a world, with fresh locals and an
    empty console. *)
Definition start {L} (l : L) (w : World) : Frame L :=
  {| world := w; vars := l; console := [] |}.

Definition run_fetchData (env : Env) (subcategoryId : string) (w : World)
  : Frame Locals :=
  snd (fetchData env subcategoryId (start noLocals w)).

Definition run_retry (env : Env) (subcategoryId : string) (w : World)
  : Frame unit :=
  snd (retry_onPress env subcategoryId (start tt w)).

(** One automatic load, and one press of Retry, as world
    transformers. *)
Definition load (env : Env) (subcategoryId : string) (w : World) : World :=
  world (run_fetchData env subcategoryId w).

Definition retry (env : Env) (subcategoryId : string) (w : World) : World :=
  world (run_retry env subcategoryId w).


(** ** Conditions of a load *)

(** The bundle the remote API serves in [env], when both requests
    resolve with [ok] and a body that parses. *)
Definition remote_bundle (env : Env) (subcategoryId : string)
  : option (Subcategory * list Dua) :=
  r1 ← fetch env (subcategory_url subcategoryId);
  if ok r1 then
    s ← JSON_parse (body r1);
    r2 ← fetch env (duas_url subcategoryId);
    if ok r2 then
      d ← JSON_parse (body r2);
      Some (s, d)
    else None
  else None.

(** The cache entry the automatic load sees: both items stored and
    truthy. *)
Definition cache_entry (st : gmap string string) (subcategoryId : string)
  : option (string * string) :=
  match st !! subcategory_cache_key subcategoryId,
        st !! duas_cache_key subcategoryId with
  | Some cs, Some cd =>
      if truthy cs && truthy cd then Some (cs, cd) else None
  | _, _ => None
  end.

(** What each path reads from the store. *)
Definition auto_cache_read (st : gmap string string) (subcategoryId : string)
  : option string * option string :=
  (st !! subcategory_cache_key subcategoryId,
   st !! duas_cache_key subcategoryId).

Definition retry_cache_read (st : gmap string string) (subcategoryId : string)
  : option string * option string :=
  (st !! subcategory_retry_key subcategoryId,
   st !! duas_retry_key subcategoryId).

(** The store answers the two reads, resp. accepts the two writes, of a
    load. *)
Definition reads_ok (env : Env) (subcategoryId : string) : Prop :=
  getItem_rejects env (subcategory_cache_key subcategoryId) = false /\
  getItem_rejects env (duas_cache_key subcategoryId) = false.

Definition writes_ok (env : Env) (subcategoryId : string) : Prop :=
  setItem_rejects env (subcategory_cache_key subcategoryId) = false /\
  setItem_rejects env (duas_cache_key subcategoryId) = false.

(** The cache read of a load throws: a read rejects, or the entry is
    there and one of its two texts does not parse. *)
Definition cache_read_throws (env : Env) (subcategoryId : string)
  (st : gmap string string) : bool :=
  getItem_rejects env (subcategory_cache_key subcategoryId)
  || getItem_rejects env (duas_cache_key subcategoryId)
  || match cache_entry st subcategoryId with
     | Some (cs, cd) =>
         match JSON_parse cs : option Subcategory,
               JSON_parse cd : option (list Dua) with
         | Some _, Some _ => false
         | _, _ => true
         end
     | None => false
     end.

(** The load gets as far as the network requests. *)
Definition attempts_fetch (env : Env) (subcategoryId : string) (w : World)
  : bool :=
  truthy subcategoryId
  && negb (cache_read_throws env subcategoryId (store w))
  && isConnected env.

(** A value that survives the store: its serialization is a non-empty
    text that parses back to it. *)
Definition survives {A} `{Json A} (v : A) : Prop :=
  truthy (JSON_stringify v) = true /\
  JSON_parse (JSON_stringify v) = Some v.

(** A sequence of automatic loads of one key, one environment per
    load. *)
Fixpoint loads (envs : list Env) (subcategoryId : string) (w : World)
  : World :=
  match envs with
  | [] => w
  | env :: rest => loads rest subcategoryId (load env subcategoryId w)
  end.

(** The bundle of the last load of the sequence whose network fetch
    succeeded, starting from [acc]. *)
Fixpoint last_fetched (envs : list Env) (subcategoryId : string) (w : World)
  (acc : option (Subcategory * list Dua))
  : option (Subcategory * list Dua) :=
  match envs with
  | [] => acc
  | env :: rest =>
      last_fetched rest subcategoryId (load env subcategoryId w)
        (if attempts_fetch env subcategoryId w then
           match remote_bundle env subcategoryId with
           | Some b => Some b
           | None => acc
           end
         else acc)
  end.


(** Every load of the sequence finishes its network branch. *)
Fixpoint all_refreshed (envs : list Env) (subcategoryId : string) (w : World)
  : Prop :=
  match envs with
  | [] => True
  | env :: rest =>
      refreshed (run_fetchData env subcategoryId w) /\
      all_refreshed rest subcategoryId (load env subcategoryId w)
  end.

(** A write of the load is rejected by the store. *)
Definition write_rejected (env : Env) (subcategoryId : string) : Prop :=
  setItem_rejects env (subcategory_cache_key subcategoryId) = true \/
  setItem_rejects env (duas_cache_key subcategoryId) = true.

(** ** Properties *)

(** The keys and the URLs stay folded while a run is simplified. *)
#[local] Arguments subcategory_cache_key : simpl never.
#[local] Arguments duas_cache_key : simpl never.
#[local] Arguments subcategory_retry_key : simpl never.
#[local] Arguments duas_retry_key : simpl never.
#[local] Arguments subcategory_url : simpl never.
#[local] Arguments duas_url : simpl never.

(** Unfolds the monad and the primitives of the loading code. *)
Ltac unfold_async :=
  unfold load, retry, run_fetchData, run_retry, fetchData, loadFromCache,
    fetchFromNetwork, onNetworkError, setUpAudio, retry_onPress,
    try_finally, try_catch, NetInfo_fetch,
    AsyncStorage_getItem, AsyncStorage_setItem, do_fetch, json, parse, throw,
    skip, setSubcategory, setSubcategoryDuas, setLoading, setError,
    setSoundObjects, set_subcategoryData, set_duasData, set_fromCache,
    modify_ui, modify_vars, read_var, console_log, start,
    mbind, mret, Async_bind, Async_ret.

(** Symbolic execution of a run.  The goal has the form
    [run = F -> P F].  [head_atom] finds the condition the run is
    waiting for (the scrutinee in head position), [split_atom] decides
    it both ways, carrying the decision into the hypotheses, and
    [exec] repeats this until the run is a value. *)
Ltac app_head t :=
  lazymatch t with
  | ?g _ => app_head g
  | _ => t
  end.

Ltac head_atom t :=
  lazymatch t with
  | match ?x with _ => _ end => head_atom x
  | negb ?x => head_atom x
  | andb ?x _ => head_atom x
  | orb ?x _ => head_atom x
  | ?g ?a =>
      let h := app_head g in
      lazymatch h with
      | match ?x with _ => _ end => head_atom x
      | _ =>
          lazymatch a with
          | context [match _ with _ => _ end] => head_atom a
          | _ => t
          end
      end
  | _ => t
  end.

Ltac split_atom a :=
  let E := fresh "E" in
  destruct a eqn:E; try congruence; simplify_eq.

(** Brings the hypotheses up to date with the decisions taken. *)
Ltac settle :=
  repeat match goal with
         | H : context [match _ with _ => _ end] |- _ => progress (cbn in H)
         | E : ?a = _, H : context [?a] |- _ =>
             first [ is_var a; fail 1
                   | lazymatch type of H with
                     | a = _ => fail
                     | _ => rewrite E in H
                     end ]
         end.

Ltac exec_step :=
  lazymatch goal with
  | |- ?X = _ -> _ =>
      lazymatch X with
      | context [match _ with _ => _ end] =>
          let a := head_atom X in split_atom a; cbn
      end
  end.

Ltac exec :=
  unfold_async; cbn; repeat exec_step; intros <-; cbn.

(** Puts a goal about [run_fetchData] or [run_retry] in the form
    [exec] expects. *)
Ltac on_run :=
  unfold load, retry;
  match goal with
  | |- context [run_fetchData ?e ?k ?w] =>
      let F := fresh "F" in
      let HF := fresh "HF" in
      remember (run_fetchData e k w) as F eqn:HF;
      symmetry in HF; revert HF
  | |- context [run_retry ?e ?k ?w] =>
      let F := fresh "F" in
      let HF := fresh "HF" in
      remember (run_retry e k w) as F eqn:HF;
      symmetry in HF; revert HF
  end.

(** *** The store keys *)

Lemma string_length_append (s t : string) :
  String.length (s +:+ t) = String.length s + String.length t.
Proof. induction s as [|c s IH]; simpl; [done | by rewrite IH]. Qed.

Lemma append_suffix_neq (s t : string) : t <> "" -> s +:+ t <> s.
Proof.
  intros Ht Heq. apply (f_equal String.length) in Heq.
  rewrite string_length_append in Heq.
  destruct t; [done | simpl in Heq; lia].
Qed.

Lemma cache_keys_differ k : subcategory_cache_key k <> duas_cache_key k.
Proof. unfold subcategory_cache_key, duas_cache_key. cbv [String.append]. congruence. Qed.

Lemma retry_keys_differ k : subcategory_retry_key k <> duas_retry_key k.
Proof. unfold subcategory_retry_key, duas_retry_key. cbv [String.append]. congruence. Qed.

Lemma subcategory_keys_differ k :
  subcategory_cache_key k <> subcategory_retry_key k.
Proof.
  unfold subcategory_cache_key, subcategory_retry_key. intros Heq.
  apply (inj (String.append "subcategory_")) in Heq.
  by apply append_suffix_neq in Heq.
Qed.

Lemma duas_keys_differ k : duas_cache_key k <> duas_retry_key k.
Proof.
  unfold duas_cache_key, duas_retry_key. intros Heq.
  apply (inj (String.append "duas_")) in Heq.
  by apply append_suffix_neq in Heq.
Qed.

Lemma subcategory_cache_not_duas_retry k :
  subcategory_cache_key k <> duas_retry_key k.
Proof. unfold subcategory_cache_key, duas_retry_key. cbv [String.append]. congruence. Qed.

Lemma duas_cache_not_subcategory_retry k :
  duas_cache_key k <> subcategory_retry_key k.
Proof. unfold duas_cache_key, subcategory_retry_key. cbv [String.append]. congruence. Qed.

Create HintDb keys.

#[local] Hint Resolve cache_keys_differ retry_keys_differ
  subcategory_keys_differ duas_keys_differ
  subcategory_cache_not_duas_retry duas_cache_not_subcategory_retry : keys.
#[local] Hint Extern 2 (_ <> _) => apply not_eq_sym : keys.

(** *** The remote bundle *)

Lemma remote_bundle_Some env k s d :
  remote_bundle env k = Some (s, d) <->
  exists r1 r2,
    fetch env (subcategory_url k) = Some r1 /\ ok r1 = true /\
    JSON_parse (body r1) = Some s /\
    fetch env (duas_url k) = Some r2 /\ ok r2 = true /\
    JSON_parse (body r2) = Some d.
Proof.
  unfold remote_bundle. split.
  - intros H. destruct (fetch env (subcategory_url k)) as [r1|]; [|done].
    simpl in H. destruct (ok r1) eqn:Hok1; [|done].
    destruct (JSON_parse (body r1)) as [s'|] eqn:Hp1; [|done].
    simpl in H. destruct (fetch env (duas_url k)) as [r2|]; [|done].
    simpl in H. destruct (ok r2) eqn:Hok2; [|done].
    destruct (JSON_parse (body r2)) as [d'|] eqn:Hp2; [|done].
    simpl in H. simplify_eq. by exists r1, r2.
  - intros (r1 & r2 & -> & Hok1 & Hp1 & -> & Hok2 & Hp2). simpl.
    rewrite Hok1, Hp1. simpl. rewrite Hok2, Hp2. done.
Qed.


(** Closes a branch in which both requests went through although the
    remote bundle is said to be missing. *)
Ltac fetch_contradiction :=
  match goal with
  | H : remote_bundle _ _ = None |- _ =>
      exfalso;
      match goal with
      | H1 : JSON_parse (body _) = Some ?s,
        H2 : JSON_parse (body _) = Some ?d |- _ =>
          assert (remote_bundle _ _ = Some (s, d)) as Hsome
            by (apply remote_bundle_Some; eauto 10);
          rewrite H in Hsome; discriminate Hsome
      end
  end.

(** *** The cache entry *)

Lemma cache_entry_Some st k cs cd :
  cache_entry st k = Some (cs, cd) <->
  st !! subcategory_cache_key k = Some cs /\
  st !! duas_cache_key k = Some cd /\
  truthy cs = true /\ truthy cd = true.
Proof.
  unfold cache_entry. split.
  - intros H.
    destruct (st !! subcategory_cache_key k) as [cs'|]; [|done].
    destruct (st !! duas_cache_key k) as [cd'|]; [|done].
    destruct (truthy cs') eqn:Hcs; [|done].
    destruct (truthy cd') eqn:Hcd; [|done].
    simpl in H. by simplify_eq.
  - intros (-> & -> & -> & ->). done.
Qed.

Lemma attempts_fetch_true env k w :
  attempts_fetch env k w = true <->
  truthy k = true /\ reads_ok env k /\ isConnected env = true /\
  (cache_entry (store w) k = None \/
   exists cs cd (s : Subcategory) (d : list Dua),
     cache_entry (store w) k = Some (cs, cd) /\
     JSON_parse cs = Some s /\ JSON_parse cd = Some d).
Proof.
  unfold attempts_fetch, cache_read_throws, reads_ok. split.
  - intros H.
    repeat match goal with
           | Hb : _ && _ = true |- _ =>
               apply andb_true_iff in Hb; destruct Hb
           | Hb : negb _ = true |- _ => apply negb_true_iff in Hb
           | Hb : _ || _ = false |- _ =>
               apply orb_false_iff in Hb; destruct Hb
           end.
    repeat split; try done.
    destruct (cache_entry (store w) k) as [[cs cd]|]; [right | by left].
    destruct (JSON_parse cs) as [s|] eqn:Hs; [|done].
    destruct (JSON_parse cd) as [d|] eqn:Hd; [|done].
    by exists cs, cd, s, d.
  - intros (-> & [-> ->] & -> & Hentry). simpl.
    destruct Hentry as [->|(cs & cd & s & d & -> & -> & ->)]; done.
Qed.

(** *** One load and the store *)

(** A load writes nothing unless both requests went through. *)
Lemma load_store_failed_fetch env k w :
  remote_bundle env k = None -> store (load env k w) = store w.
Proof.
  intros Hnone. on_run. exec. all: try done. all: fetch_contradiction.
Qed.


(** A load that does not get to the network writes nothing. *)
Lemma load_store_no_attempt env k w :
  attempts_fetch env k w = false -> store (load env k w) = store w.
Proof.
  intros Hno.
  unfold attempts_fetch, cache_read_throws, cache_entry in Hno.
  on_run. exec. all: settle; done.
Qed.

(** What a load that finished its network branch has written. *)
Lemma refreshed_store env k w :
  refreshed (run_fetchData env k w) ->
  exists s d,
    remote_bundle env k = Some (s, d) /\
    store (load env k w) =
      <[duas_cache_key k := JSON_stringify d]>
        (<[subcategory_cache_key k := JSON_stringify s]> (store w)).
Proof.
  unfold refreshed. on_run. exec.
  all: try (intros Hin; repeat (apply elem_of_cons in Hin as [Hin|Hin];
              [discriminate Hin|]); by apply elem_of_nil in Hin).
  all: intros _; eexists _, _; split;
    [apply remote_bundle_Some; eauto 10 | done].
Qed.

(** A load whose requests both went through, with a store that accepts
    the writes, leaves the fetched bundle under its two keys. *)
Lemma load_store_fetched env k w s d :
  attempts_fetch env k w = true ->
  remote_bundle env k = Some (s, d) ->
  writes_ok env k ->
  store (load env k w) =
    <[duas_cache_key k := JSON_stringify d]>
      (<[subcategory_cache_key k := JSON_stringify s]> (store w)).
Proof.
  intros (Hk & [Hr1 Hr2] & Hnet & Hentry)%attempts_fetch_true
    (r1 & r2 & Hf1 & Hok1 & Hp1 & Hf2 & Hok2 & Hp2)%remote_bundle_Some
    [Hw1 Hw2].
  destruct Hentry as [Hmiss | (cs & cd & s0 & d0 & Hhit & Hs0 & Hd0)].
  - unfold cache_entry in Hmiss. on_run. exec. all: settle; done.
  - apply cache_entry_Some in Hhit as (Hcs & Hcd & Htcs & Htcd).
    on_run. exec. all: settle; done.
Qed.

Lemma auto_cache_read_written (st : gmap string string) k a b :
  auto_cache_read
    (<[duas_cache_key k := b]> (<[subcategory_cache_key k := a]> st)) k
  = (Some a, Some b).
Proof.
  unfold auto_cache_read.
  rewrite lookup_insert_ne by (apply not_eq_sym, cache_keys_differ).
  by rewrite !lookup_insert_eq.
Qed.

Lemma written_twice (st : gmap string string) k a b :
  <[duas_cache_key k := b]> (<[subcategory_cache_key k := a]>
    (<[duas_cache_key k := b]> (<[subcategory_cache_key k := a]> st)))
  = <[duas_cache_key k := b]> (<[subcategory_cache_key k := a]> st).
Proof.
  rewrite (insert_insert_ne _ (subcategory_cache_key k) (duas_cache_key k))
    by apply cache_keys_differ.
  by rewrite !insert_insert_eq.
Qed.

(** The console of a finished run decides membership by computation. *)
Ltac not_logged H :=
  exfalso; apply (bool_decide_pack _) in H; vm_compute in H; exact H.

Ltac logged := apply (bool_decide_unpack _); vm_compute; exact I.

(** *** The specified properties *)

(** C1.  When the store holds both items of the entry of a key and both
    parse, the load ends with [Cached] and exactly the stored bundle on
    screen, whatever the connectivity, the answers of the remote API and
    the fate of the cache writes are; the error panel is not shown. *)
Theorem cached_entry_is_surfaced env k w cs cd
    (s : Subcategory) (d : list Dua) :
  truthy k = true ->
  reads_ok env k ->
  cache_entry (store w) k = Some (cs, cd) ->
  JSON_parse cs = Some s ->
  JSON_parse cd = Some d ->
  Cached (run_fetchData env k w) s d /\
  (forall reason, ~ Unavailable (run_fetchData env k w) reason).
Proof.
  intros Hk [Hr1 Hr2] (Hcs & Hcd & Htcs & Htcd)%cache_entry_Some Hs Hd.
  unfold Cached, bundle_shown, Unavailable, render.
  on_run. exec. all: by repeat split.
Qed.

(** A load from a miss, online, with both requests answered and both
    writes accepted: the fetched bundle is shown as [Fresh]. *)
Lemma miss_then_fetch_is_fresh env k w (s : Subcategory) (d : list Dua) :
  truthy k = true ->
  reads_ok env k ->
  writes_ok env k ->
  cache_entry (store w) k = None ->
  isConnected env = true ->
  remote_bundle env k = Some (s, d) ->
  Fresh (run_fetchData env k w) s d.
Proof.
  intros Hk [Hr1 Hr2] [Hw1 Hw2] Hmiss Hnet
    (r1 & r2 & Hf1 & Hok1 & Hp1 & Hf2 & Hok2 & Hp2)%remote_bundle_Some.
  unfold cache_entry in Hmiss.
  unfold Fresh, bundle_shown.
  on_run. exec. all: settle; repeat split; try done; logged.
Qed.

(** C2, as amended.  From a miss, online, with both requests answered
    and both cache writes accepted by the store, the load ends with
    [Fresh] and the fetched bundle; a following load of the same key
    without connectivity ends with [Cached] and the same bundle, whatever
    the screen over the store that the first load left shows when it
    starts (a new mount shows nothing yet).  The reads of the store are
    taken to answer, and the bundle to survive serialization. *)
Theorem fresh_then_cached env env' k w w' (s : Subcategory) (d : list Dua) :
  truthy k = true ->
  reads_ok env k ->
  writes_ok env k ->
  cache_entry (store w) k = None ->
  isConnected env = true ->
  remote_bundle env k = Some (s, d) ->
  survives s ->
  survives d ->
  reads_ok env' k ->
  isConnected env' = false ->
  store w' = store (load env k w) ->
  Fresh (run_fetchData env k w) s d /\
  Cached (run_fetchData env' k w') s d.
Proof.
  intros Hk Hr Hw Hmiss Hnet Hremote [Hts Hps] [Htd Hpd] Hr' Hoff Hleft.
  split; [by apply miss_then_fetch_is_fresh |].
  assert (attempts_fetch env k w = true) as Hatt.
  { apply attempts_fetch_true. repeat split; try apply Hr; auto. }
  pose proof (load_store_fetched env k w s d Hatt Hremote Hw) as Hstore.
  assert (cache_entry (store (load env k w)) k
          = Some (JSON_stringify s, JSON_stringify d)) as Hhit.
  { apply cache_entry_Some. rewrite Hstore.
    pose proof (auto_cache_read_written (store w) k
                  (JSON_stringify s) (JSON_stringify d)) as Hread.
    unfold auto_cache_read in Hread. by simplify_eq. }
  destruct Hr' as [Hr1' Hr2'].
  rewrite <- Hleft in Hhit.
  apply cache_entry_Some in Hhit as (Hcs & Hcd & _ & _).
  clear Hstore Hleft Hatt Hmiss.
  unfold Cached, bundle_shown.
  on_run. exec. all: by repeat split.
Qed.

(** C3, as amended.  From a miss and without connectivity the error
    panel shows the offline message of [fetchData]; and whatever a load
    meets, the message on the error panel is one of three: the missing
    id, the offline message, or the general failure of the outer
    [catch]. *)
Theorem offline_miss_is_unavailable env k w :
  truthy k = true ->
  reads_ok env k ->
  cache_entry (store w) k = None ->
  isConnected env = false ->
  Unavailable (run_fetchData env k w)
    "No internet connection and no cached data available. Please connect to the internet and try again." /\
  (forall env' k' w' reason,
     Unavailable (run_fetchData env' k' w') reason ->
     reason = "No subcategory ID found" \/
     reason = "No internet connection and no cached data available. Please connect to the internet and try again." \/
     reason = "Failed to load duas. Please try again later.").
Proof.
  intros Hk [Hr1 Hr2] Hmiss Hoff. unfold cache_entry in Hmiss. split.
  - unfold Unavailable, render. on_run. exec. all: settle; done.
  - clear. intros env k w reason. unfold Unavailable, render.
    on_run. exec. all: intros [= <-]; auto.
Qed.

(** C5.  A load whose fetch fails at the metadata or at the items stage
    (a rejected request, a status that is not ok, a body that does not
    parse) leaves the whole store as it was: no cache write happens and
    the old entry, if any, is still there unchanged. *)
Theorem failed_fetch_keeps_cache env k w :
  remote_bundle env k = None ->
  store (load env k w) = store w /\
  auto_cache_read (store (load env k w)) k = auto_cache_read (store w) k.
Proof.
  intros Hnone. rewrite (load_store_failed_fetch env k w Hnone). done.
Qed.

(** C10.  From a miss, online, with a fetch that fails at any stage,
    the load ends with no error and no bundle: [error] is [null], what
    was on screen stays (the empty list on a new screen), and the frame
    is neither [Fresh], nor [Cached], nor [Unavailable]. *)
Theorem failed_fetch_without_cache_is_silent env k w :
  truthy k = true ->
  reads_ok env k ->
  cache_entry (store w) k = None ->
  isConnected env = true ->
  remote_bundle env k = None ->
  let f := run_fetchData env k w in
  error (ui (world f)) = None /\
  loading (ui (world f)) = false /\
  subcategory (ui (world f)) = subcategory (ui w) /\
  subcategoryDuas (ui (world f)) = subcategoryDuas (ui w) /\
  render (ui (world f)) = ContentView (subcategoryDuas (ui w)) /\
  (forall s d, ~ Fresh f s d) /\
  (forall s d, ~ Cached f s d) /\
  (forall reason, ~ Unavailable f reason).
Proof.
  intros Hk [Hr1 Hr2] Hmiss Hnet Hnone f. subst f.
  unfold cache_entry in Hmiss.
  unfold Fresh, Cached, Unavailable, render.
  on_run. exec. all: settle; try fetch_contradiction.
  all: repeat split; try done.
  all: try (intros ? ? (_ & Hin & _); not_logged Hin).
  all: by intros ? ? [? _].
Qed.

(** A bundle shown as [Fresh] is the one the load has just written. *)
Lemma fresh_is_persisted env k w (s : Subcategory) (d : list Dua) :
  Fresh (run_fetchData env k w) s d ->
  auto_cache_read (store (load env k w)) k
  = (Some (JSON_stringify s), Some (JSON_stringify d)).
Proof.
  unfold Fresh, bundle_shown, auto_cache_read.
  on_run. exec.
  all: intros (Hfc & Hin & Hs & Hd & _); try done; try (not_logged Hin).
  all: simplify_eq.
  all: rewrite lookup_insert_ne by (apply not_eq_sym, cache_keys_differ).
  all: by rewrite !lookup_insert_eq.
Qed.

(** The invariant of a sequence of loads: the entry is the bundle of the
    last successful fetch. *)
Lemma last_fetched_is_stored envs k :
  Forall (fun env => writes_ok env k) envs ->
  forall w acc,
    (forall s d, acc = Some (s, d) ->
       auto_cache_read (store w) k
       = (Some (JSON_stringify s), Some (JSON_stringify d))) ->
    forall s d,
      last_fetched envs k w acc = Some (s, d) ->
      auto_cache_read (store (loads envs k w)) k
      = (Some (JSON_stringify s), Some (JSON_stringify d)).
Proof.
  induction 1 as [|env envs Hw _ IH]; intros w acc Hacc s d Hlast.
  - by apply Hacc.
  - simpl in *. eapply IH; [|exact Hlast].
    intros s' d' Hacc'.
    destruct (attempts_fetch env k w) eqn:Hatt.
    + destruct (remote_bundle env k) as [[s0 d0]|] eqn:Hremote.
      * simplify_eq.
        rewrite (load_store_fetched env k w s' d' Hatt Hremote Hw).
        apply auto_cache_read_written.
      * rewrite (load_store_failed_fetch env k w Hremote). by apply Hacc.
    + rewrite (load_store_no_attempt env k w Hatt). by apply Hacc.
Qed.

(** The Retry handler, too, writes before it shows: when it ends
    without falling back to its cache, the bundle it shows is the
    fetched one and is in the store under the keys of Retry. *)
Lemma retry_shows_what_it_persisted env k w :
  "Network error in retry, trying cache:" ∉ console (run_retry env k w) ->
  exists (s : Subcategory) (d : list Dua),
    remote_bundle env k = Some (s, d) /\
    retry_cache_read (store (retry env k w)) k
    = (Some (JSON_stringify s), Some (JSON_stringify d)) /\
    subcategory (ui (retry env k w)) = Some s /\
    subcategoryDuas (ui (retry env k w)) = d.
Proof.
  unfold retry_cache_read. on_run. exec.
  all: try (intros Hnot; exfalso; apply Hnot; logged).
  intros _. eexists _, _. split; [apply remote_bundle_Some; eauto 10|].
  rewrite lookup_insert_ne by (apply not_eq_sym, retry_keys_differ).
  by rewrite !lookup_insert_eq.
Qed.

(** The writes come before the show, and a rejected write skips the
    show.  So, with no assumption on the store or the network: a load
    leaves the bundle on screen as it was, or puts there the bundle it
    parsed from the entry of the store, or puts there the fetched bundle,
    from a miss, and then the store holds that bundle already. *)
Lemma load_shows_what_is_stored env k w :
  (subcategory (ui (load env k w)) = subcategory (ui w) /\
   subcategoryDuas (ui (load env k w)) = subcategoryDuas (ui w)) \/
  (exists cs cd (s : Subcategory) (d : list Dua),
     cache_entry (store w) k = Some (cs, cd) /\
     JSON_parse cs = Some s /\ JSON_parse cd = Some d /\
     subcategory (ui (load env k w)) = Some s /\
     subcategoryDuas (ui (load env k w)) = d) \/
  (exists (s : Subcategory) (d : list Dua),
     cache_entry (store w) k = None /\
     remote_bundle env k = Some (s, d) /\
     subcategory (ui (load env k w)) = Some s /\
     subcategoryDuas (ui (load env k w)) = d /\
     auto_cache_read (store (load env k w)) k
     = (Some (JSON_stringify s), Some (JSON_stringify d))).
Proof.
  unfold cache_entry, auto_cache_read.
  on_run. exec.
  all: first
    [ by left
    | right; left; eexists _, _, _, _; by repeat split
    | right; right; eexists _, _; split; [done|];
      split; [apply remote_bundle_Some; eauto 10|];
      split; [done|]; split; [done|];
      rewrite lookup_insert_ne by (apply not_eq_sym, cache_keys_differ);
      by rewrite !lookup_insert_eq ].
Qed.

(** The same for the Retry handler, item by item: the subcategory, and
    the list, that a Retry puts on screen is in the store under the key
    of Retry when the handler ends, as the text that was written from it
    (the network branch) or as the text it was parsed from (the cache
    fallback). *)
Lemma retry_shows_what_is_stored env k w :
  (subcategory (ui (retry env k w)) = subcategory (ui w) \/
   exists text (s : Subcategory),
     store (retry env k w) !! subcategory_retry_key k = Some text /\
     subcategory (ui (retry env k w)) = Some s /\
     (text = JSON_stringify s \/ JSON_parse text = Some s)) /\
  (subcategoryDuas (ui (retry env k w)) = subcategoryDuas (ui w) \/
   exists text,
     store (retry env k w) !! duas_retry_key k = Some text /\
     (text = JSON_stringify (subcategoryDuas (ui (retry env k w))) \/
      JSON_parse text = Some (subcategoryDuas (ui (retry env k w))))).
Proof.
  on_run. exec.
  all: split.
  all: first
    [ by left
    | right; eexists _, _; split; [eassumption|]; split; [done|]; by right
    | right; eexists; split; [eassumption|]; by right
    | right; eexists _, _; split;
        [rewrite lookup_insert_ne by (apply not_eq_sym, retry_keys_differ);
         by rewrite lookup_insert_eq |];
        split; [done|]; by left
    | right; eexists; split; [by rewrite lookup_insert_eq |]; by left ].
Qed.

(** C4, as amended.  Over any sequence of loads of a key whose writes
    the store accepts, the entry of the key holds the serialized bundle
    of the last load whose fetch succeeded.  A bundle that a load shows
    as [Fresh] is in the store.  The write comes before the show: with
    no assumption on the store, a load that changes the bundle on screen
    has parsed it from the entry of the store or has fetched it and
    written it, so a fetched bundle whose write is rejected is not put on
    screen.  The same holds in the Retry handler, under its own keys. *)
Theorem fetched_bundle_is_persisted envs k w (s : Subcategory) (d : list Dua) :
  Forall (fun env => writes_ok env k) envs ->
  last_fetched envs k w None = Some (s, d) ->
  auto_cache_read (store (loads envs k w)) k
  = (Some (JSON_stringify s), Some (JSON_stringify d)) /\
  (forall env w' (s' : Subcategory) (d' : list Dua),
     Fresh (run_fetchData env k w') s' d' ->
     auto_cache_read (store (load env k w')) k
     = (Some (JSON_stringify s'), Some (JSON_stringify d'))) /\
  (forall env w',
     (subcategory (ui (load env k w')) = subcategory (ui w') /\
      subcategoryDuas (ui (load env k w')) = subcategoryDuas (ui w')) \/
     (exists cs cd (s' : Subcategory) (d' : list Dua),
        cache_entry (store w') k = Some (cs, cd) /\
        JSON_parse cs = Some s' /\ JSON_parse cd = Some d' /\
        subcategory (ui (load env k w')) = Some s' /\
        subcategoryDuas (ui (load env k w')) = d') \/
     (exists (s' : Subcategory) (d' : list Dua),
        cache_entry (store w') k = None /\
        remote_bundle env k = Some (s', d') /\
        subcategory (ui (load env k w')) = Some s' /\
        subcategoryDuas (ui (load env k w')) = d' /\
        auto_cache_read (store (load env k w')) k
        = (Some (JSON_stringify s'), Some (JSON_stringify d')))) /\
  (forall env w',
     "Network error in retry, trying cache:" ∉ console (run_retry env k w') ->
     exists (s' : Subcategory) (d' : list Dua),
       remote_bundle env k = Some (s', d') /\
       retry_cache_read (store (retry env k w')) k
       = (Some (JSON_stringify s'), Some (JSON_stringify d')) /\
       subcategory (ui (retry env k w')) = Some s' /\
       subcategoryDuas (ui (retry env k w')) = d') /\
  (forall env w',
     (subcategory (ui (retry env k w')) = subcategory (ui w') \/
      exists text (s' : Subcategory),
        store (retry env k w') !! subcategory_retry_key k = Some text /\
        subcategory (ui (retry env k w')) = Some s' /\
        (text = JSON_stringify s' \/ JSON_parse text = Some s')) /\
     (subcategoryDuas (ui (retry env k w')) = subcategoryDuas (ui w') \/
      exists text,
        store (retry env k w') !! duas_retry_key k = Some text /\
        (text = JSON_stringify (subcategoryDuas (ui (retry env k w'))) \/
         JSON_parse text = Some (subcategoryDuas (ui (retry env k w')))))).
Proof.
  intros Hw Hlast. split; [|split; [|split; [|split]]].
  - apply (last_fetched_is_stored envs k Hw w None); [done | exact Hlast].
  - intros env w' s' d'. apply fresh_is_persisted.
  - intros env w'. apply load_shows_what_is_stored.
  - intros env w'. apply retry_shows_what_it_persisted.
  - intros env w'. apply retry_shows_what_is_stored.
Qed.

(** Loads that all finish their network branch while the remote serves
    one bundle, started from a store that already holds that bundle,
    leave the store as it is. *)
Lemma refreshes_keep_written envs k (s : Subcategory) (d : list Dua) :
  Forall (fun env => remote_bundle env k = Some (s, d)) envs ->
  forall w st,
    store w =
      <[duas_cache_key k := JSON_stringify d]>
        (<[subcategory_cache_key k := JSON_stringify s]> st) ->
    all_refreshed envs k w ->
    store (loads envs k w) = store w.
Proof.
  induction 1 as [|env envs Hremote _ IH]; intros w st Hst Hall; [done|].
  simpl in *. destruct Hall as [Hfirst Hrest].
  apply refreshed_store in Hfirst as (s' & d' & Hremote' & Hstore).
  assert (store (load env k w) = store w) as Hsame.
  { rewrite Hstore, Hst. simplify_eq. apply written_twice. }
  rewrite (IH (load env k w) st); [done | by rewrite Hsame | done].
Qed.

(** C9.  Successful loads of a key, repeated while the remote serves the
    same bundle, are idempotent on the store: the first one persists the
    two serialized texts of the bundle, and after each further one the
    store is exactly what the first one left. *)
Theorem repeated_refresh_is_idempotent env envs k w
    (s : Subcategory) (d : list Dua) :
  remote_bundle env k = Some (s, d) ->
  Forall (fun env' => remote_bundle env' k = Some (s, d)) envs ->
  all_refreshed (env :: envs) k w ->
  auto_cache_read (store (load env k w)) k
  = (Some (JSON_stringify s), Some (JSON_stringify d)) /\
  store (loads envs k (load env k w)) = store (load env k w).
Proof.
  intros Hremote Hall [Hfirst Hrest].
  apply refreshed_store in Hfirst as (s' & d' & Hremote' & Hstore).
  simplify_eq. split.
  - rewrite Hstore. apply auto_cache_read_written.
  - by apply (refreshes_keep_written envs k s d Hall _ (store w)).
Qed.

(** C6, as amended.  An absent entry is a miss and the load goes on to
    the network: online, with both requests answered and the writes
    accepted, the fetched bundle is shown as [Fresh].  A read that
    rejects, or an entry one text of which does not parse, ends the load
    in the outer [catch]: the error panel shows the general failure
    message, the store and the bundle on screen are untouched, and the
    network branch is not run to its end. *)
Theorem cache_miss_falls_through_cache_failure_does_not env k w :
  truthy k = true ->
  (reads_ok env k ->
   cache_entry (store w) k = None ->
   isConnected env = true ->
   writes_ok env k ->
   forall (s : Subcategory) (d : list Dua),
     remote_bundle env k = Some (s, d) ->
     Fresh (run_fetchData env k w) s d) /\
  (cache_read_throws env k (store w) = true ->
   Unavailable (run_fetchData env k w)
     "Failed to load duas. Please try again later." /\
   store (load env k w) = store w /\
   subcategory (ui (load env k w)) = subcategory (ui w) /\
   subcategoryDuas (ui (load env k w)) = subcategoryDuas (ui w) /\
   ~ refreshed (run_fetchData env k w)).
Proof.
  intros Hk. split.
  - intros Hr Hmiss Hnet Hw s d Hremote.
    by apply miss_then_fetch_is_fresh.
  - intros Hthrows.
    unfold cache_read_throws, cache_entry in Hthrows.
    unfold Unavailable, render, refreshed.
    on_run. exec. all: settle; try done.
    all: repeat split; try done.
    all: intros Hin; not_logged Hin.
Qed.

(** C7, as amended.  When both requests are answered and the store
    rejects a write, no error is shown and the network branch ends in its
    [catch].  With an entry in the store the load ends with [Cached] and
    the stored bundle, as it does when the writes are accepted; from a
    miss nothing is put on screen: the fetched bundle is not shown. *)
Theorem rejected_write_skips_fresh_bundle env k w
    (s : Subcategory) (d : list Dua) :
  attempts_fetch env k w = true ->
  remote_bundle env k = Some (s, d) ->
  write_rejected env k ->
  let f := run_fetchData env k w in
  error (ui (world f)) = None /\
  loading (ui (world f)) = false /\
  ~ refreshed f /\
  (forall cs cd (s0 : Subcategory) (d0 : list Dua),
     cache_entry (store w) k = Some (cs, cd) ->
     JSON_parse cs = Some s0 ->
     JSON_parse cd = Some d0 ->
     Cached f s0 d0) /\
  (cache_entry (store w) k = None ->
   subcategory (ui (world f)) = subcategory (ui w) /\
   subcategoryDuas (ui (world f)) = subcategoryDuas (ui w) /\
   forall s' d', ~ Fresh f s' d').
Proof.
  intros (Hk & [Hr1 Hr2] & Hnet & Hentry)%attempts_fetch_true
    (r1 & r2 & Hf1 & Hok1 & Hp1 & Hf2 & Hok2 & Hp2)%remote_bundle_Some
    Hrej f. subst f.
  unfold write_rejected in Hrej.
  unfold Cached, Fresh, bundle_shown, refreshed.
  destruct Hentry as [Hmiss | (cs & cd & s0 & d0 & Hhit & Hs0 & Hd0)].
  - rewrite Hmiss. unfold cache_entry in Hmiss.
    on_run. exec. all: settle.
    all: try (destruct Hrej; discriminate).
    all: repeat split; try done.
    all: try (intros Hin; not_logged Hin).
    all: intros ? ? (_ & Hin & _); not_logged Hin.
  - rewrite Hhit.
    apply cache_entry_Some in Hhit as (Hcs & Hcd & Htcs & Htcd).
    on_run. exec. all: settle.
    all: try (destruct Hrej; discriminate).
    all: repeat split; try done.
    all: try (intros Hin; not_logged Hin).
    all: intros; by simplify_eq.
Qed.

(** A Retry whose fetch fails reads its two keys and nothing else. *)
Lemma retry_fallback_empty env k w :
  retry_cache_read (store w) k = (None, None) ->
  remote_bundle env k = None ->
  getItem_rejects env (subcategory_retry_key k) = false ->
  getItem_rejects env (duas_retry_key k) = false ->
  Unavailable (run_retry env k w)
    "No internet connection and no cached data available.".
Proof.
  unfold retry_cache_read. intros [= Hs Hd] Hnone Hr1 Hr2.
  unfold Unavailable, render.
  on_run. exec. all: settle; try done; fetch_contradiction.
Qed.

(** C8.  The automatic load and the Retry handler keep their bundles
    under different keys of the store, the keys of the load being those
    of Retry with the suffix _cache.  For one and the same id the keys
    are pairwise distinct; a load leaves what the cache fallback of Retry
    reads as it was, and a Retry leaves what the cache read of the load
    reads as it was.  So, from a store with nothing under the keys of
    Retry, the fallback of a Retry that follows a load finds no bundle;
    and from a store with nothing under the keys of the load, an offline
    load that follows a Retry finds none. *)
Theorem cache_namespaces_do_not_meet env env' k w :
  retry_cache_read (store (load env k w)) k = retry_cache_read (store w) k /\
  auto_cache_read (store (retry env k w)) k = auto_cache_read (store w) k /\
  (subcategory_cache_key k = subcategory_retry_key k +:+ "_cache" /\
   duas_cache_key k = duas_retry_key k +:+ "_cache" /\
   subcategory_cache_key k <> subcategory_retry_key k /\
   subcategory_cache_key k <> duas_retry_key k /\
   duas_cache_key k <> subcategory_retry_key k /\
   duas_cache_key k <> duas_retry_key k) /\
  (retry_cache_read (store w) k = (None, None) ->
   remote_bundle env' k = None ->
   getItem_rejects env' (subcategory_retry_key k) = false ->
   getItem_rejects env' (duas_retry_key k) = false ->
   Unavailable (run_retry env' k (load env k w))
     "No internet connection and no cached data available.") /\
  (auto_cache_read (store w) k = (None, None) ->
   truthy k = true ->
   reads_ok env' k ->
   isConnected env' = false ->
   Unavailable (run_fetchData env' k (retry env k w))
     "No internet connection and no cached data available. Please connect to the internet and try again.").
Proof.
  assert (retry_cache_read (store (load env k w)) k
          = retry_cache_read (store w) k) as Hload.
  { unfold retry_cache_read. on_run. exec.
    all: rewrite ?lookup_insert_ne; auto with keys. }
  assert (auto_cache_read (store (retry env k w)) k
          = auto_cache_read (store w) k) as Hretry.
  { unfold auto_cache_read. on_run. exec.
    all: rewrite ?lookup_insert_ne; auto with keys. }
  split; [exact Hload|]. split; [exact Hretry|]. split; [|split].
  - repeat split; auto with keys.
  - intros Hempty. rewrite <- Hload in Hempty.
    by apply retry_fallback_empty.
  - intros Hempty Hk [Hr1 Hr2] Hoff. rewrite <- Hretry in Hempty.
    generalize dependent (retry env k w). intros w1 _.
    unfold auto_cache_read. intros [= Hs Hd].
    unfold Unavailable, render.
    on_run. exec. all: settle; done.
Qed.

End Loader.

(** ** The properties at the sample data *)

Import Sample.

#[local] Existing Instance json_subcategory.
#[local] Existing Instance json_duas.

(** A cached bundle is shown although the remote serves a newer one. *)
Lemma cached_entry_is_surfaced_witness :
  Cached
    (run_fetchData api (online morning2 [dua1]) "12"
       (with_cache morning [dua1; dua2]))
    morning [dua1; dua2] /\
  (forall reason,
     ~ Unavailable
         (run_fetchData api (online morning2 [dua1]) "12"
            (with_cache morning [dua1; dua2]))
         reason).
Proof.
  apply (cached_entry_is_surfaced api (online morning2 [dua1]) "12"
           (with_cache morning [dua1; dua2])
           (print_subcategory morning) (print_duas [dua1; dua2])).
  - reflexivity.
  - split; reflexivity.
  - vm_compute. reflexivity.
  - vm_compute. reflexivity.
  - vm_compute. reflexivity.
Defined.

(** A first load online, then a second one offline on a new mount of
    the screen. *)
Lemma fresh_then_cached_witness :
  Fresh
    (run_fetchData api (online morning [dua1; dua2]) "12" fresh_install)
    morning [dua1; dua2] /\
  Cached
    (run_fetchData api offline "12"
       (remount (load api (online morning [dua1; dua2]) "12" fresh_install)))
    morning [dua1; dua2].
Proof.
  apply (fresh_then_cached api (online morning [dua1; dua2]) offline "12"
           fresh_install
           (remount
              (load api (online morning [dua1; dua2]) "12" fresh_install))
           morning [dua1; dua2]).
  - reflexivity.
  - split; reflexivity.
  - split; reflexivity.
  - vm_compute. reflexivity.
  - reflexivity.
  - vm_compute. reflexivity.
  - split; vm_compute; reflexivity.
  - split; vm_compute; reflexivity.
  - split; reflexivity.
  - reflexivity.
  - reflexivity.
Defined.

(** The specification has every load from a miss, with a reachable
    device and two answered requests, end as [Fresh], and the next load
    offline as [Cached].  With a store that rejects its writes the first
    load is not [Fresh], and the offline load that follows on a new mount
    finds no entry and shows the offline error. *)
Lemma full_store_is_neither_fresh_nor_cached :
  cache_entry (store fresh_install) "12" = None /\
  isConnected (online_store_full morning [dua1; dua2]) = true /\
  remote_bundle api (online_store_full morning [dua1; dua2]) "12"
  = Some (morning, [dua1; dua2]) /\
  ~ Fresh
      (run_fetchData api (online_store_full morning [dua1; dua2]) "12"
         fresh_install)
      morning [dua1; dua2] /\
  ~ Cached
      (run_fetchData api offline "12"
         (remount
            (load api (online_store_full morning [dua1; dua2]) "12"
               fresh_install)))
      morning [dua1; dua2] /\
  Unavailable
    (run_fetchData api offline "12"
       (remount
          (load api (online_store_full morning [dua1; dua2]) "12"
             fresh_install)))
    "No internet connection and no cached data available. Please connect to the internet and try again.".
Proof.
  repeat split; try (vm_compute; reflexivity).
  - intros (_ & _ & Hshown & _). vm_compute in Hshown. discriminate Hshown.
  - intros (Hfrom & _). vm_compute in Hfrom. discriminate Hfrom.
Qed.

(** Offline on a new installation. *)
Lemma offline_miss_is_unavailable_witness :
  Unavailable (run_fetchData api offline "12" fresh_install)
    "No internet connection and no cached data available. Please connect to the internet and try again." /\
  (forall env' k' w' reason,
     Unavailable (run_fetchData api env' k' w') reason ->
     reason = "No subcategory ID found" \/
     reason = "No internet connection and no cached data available. Please connect to the internet and try again." \/
     reason = "Failed to load duas. Please try again later.").
Proof.
  apply (offline_miss_is_unavailable api offline "12" fresh_install).
  - reflexivity.
  - split; reflexivity.
  - vm_compute. reflexivity.
  - reflexivity.
Defined.

(** The specification gives the offline reason as the only error of a
    load; a store that rejects its reads produces another one, with a
    server that answers. *)
Lemma unreadable_store_is_another_error :
  Unavailable
    (run_fetchData api (online_store_unreadable morning [dua1; dua2]) "12"
       fresh_install)
    "Failed to load duas. Please try again later." /\
  "Failed to load duas. Please try again later."
  <> "no internet connection and no cached data available".
Proof. split; [vm_compute; reflexivity | discriminate]. Qed.

(** Four loads: online, offline, online with a revised bundle, online
    with a server that does not answer.  The entry is the revised
    bundle. *)
Lemma fetched_bundle_is_persisted_witness :
  auto_cache_read
    (store
       (loads api
          [online morning [dua1; dua2]; offline; online morning2 [dua1];
           unreachable_server]
          "12" fresh_install))
    "12"
  = (Some (print_subcategory morning2), Some (print_duas [dua1])).
Proof.
  refine (proj1 (fetched_bundle_is_persisted api
           [online morning [dua1; dua2]; offline; online morning2 [dua1];
            unreachable_server]
           "12" fresh_install morning2 [dua1] _ _)).
  - repeat (constructor; [split; reflexivity |]). constructor.
  - vm_compute. reflexivity.
Defined.

(** The specification has the entry never staler than the last
    successful fetch.  Here the store holds a bundle, the fetch of a load
    succeeds with a revised bundle, and the store rejects the writes: the
    entry is still the old bundle. *)
Lemma rejected_write_leaves_stale_entry :
  last_fetched api [online_store_full morning2 [dua1]] "12"
    (with_cache morning [dua1; dua2]) None
  = Some (morning2, [dua1]) /\
  auto_cache_read
    (store
       (loads api [online_store_full morning2 [dua1]] "12"
          (with_cache morning [dua1; dua2])))
    "12"
  = (Some (print_subcategory morning), Some (print_duas [dua1; dua2])) /\
  print_subcategory morning <> print_subcategory morning2 /\
  print_duas [dua1; dua2] <> print_duas [dua1].
Proof.
  repeat split; try (vm_compute; reflexivity).
  - vm_compute. discriminate.
  - vm_compute. discriminate.
Qed.

(** The metadata request succeeds, the items request fails: the entry
    stays. *)
Lemma failed_fetch_keeps_cache_witness :
  store (load api (online_items_failing morning2) "12"
           (with_cache morning [dua1; dua2]))
  = store (with_cache morning [dua1; dua2]).
Proof.
  refine (proj1 (failed_fetch_keeps_cache api (online_items_failing morning2)
           "12" (with_cache morning [dua1; dua2]) _)).
  vm_compute. reflexivity.
Defined.

(** An absent entry falls through to the network; a damaged one ends
    the load with the general failure. *)
Lemma cache_miss_falls_through_cache_failure_does_not_witness :
  Fresh
    (run_fetchData api (online morning [dua1; dua2]) "12" fresh_install)
    morning [dua1; dua2] /\
  Unavailable
    (run_fetchData api (online morning [dua1; dua2]) "12" with_damaged_cache)
    "Failed to load duas. Please try again later.".
Proof.
  split.
  - apply (cache_miss_falls_through_cache_failure_does_not api
             (online morning [dua1; dua2]) "12" fresh_install).
    + reflexivity.
    + split; reflexivity.
    + vm_compute. reflexivity.
    + reflexivity.
    + split; reflexivity.
    + vm_compute. reflexivity.
  - apply (cache_miss_falls_through_cache_failure_does_not api
             (online morning [dua1; dua2]) "12" with_damaged_cache).
    + reflexivity.
    + vm_compute. reflexivity.
Defined.

(** The specification has a damaged entry treated as a miss.  Here the
    server answers both requests, and the load still ends with the error
    panel and without the fetched bundle. *)
Lemma damaged_cache_fails_the_load :
  remote_bundle api (online morning [dua1; dua2]) "12"
  = Some (morning, [dua1; dua2]) /\
  cache_read_throws (online morning [dua1; dua2]) "12"
    (store with_damaged_cache) = true /\
  Unavailable
    (run_fetchData api (online morning [dua1; dua2]) "12" with_damaged_cache)
    "Failed to load duas. Please try again later." /\
  ~ Fresh
      (run_fetchData api (online morning [dua1; dua2]) "12"
         with_damaged_cache)
      morning [dua1; dua2].
Proof.
  repeat split; try (vm_compute; reflexivity).
  intros (_ & _ & Hshown & _). vm_compute in Hshown. discriminate Hshown.
Qed.

(** Both requests are answered and the store rejects the writes, on a
    new installation. *)
Lemma rejected_write_skips_fresh_bundle_witness :
  let f :=
    run_fetchData api (online_store_full morning [dua1; dua2]) "12"
      fresh_install in
  error (ui (world f)) = None /\
  loading (ui (world f)) = false /\
  ~ refreshed f /\
  (forall cs cd (s0 : Subcategory) (d0 : list Dua),
     cache_entry (store fresh_install) "12" = Some (cs, cd) ->
     JSON_parse cs = Some s0 ->
     JSON_parse cd = Some d0 ->
     Cached f s0 d0) /\
  (cache_entry (store fresh_install) "12" = None ->
   subcategory (ui (world f)) = subcategory (ui fresh_install) /\
   subcategoryDuas (ui (world f)) = subcategoryDuas (ui fresh_install) /\
   forall s' d', ~ Fresh f s' d').
Proof.
  apply (rejected_write_skips_fresh_bundle api
           (online_store_full morning [dua1; dua2]) "12" fresh_install
           morning [dua1; dua2]).
  - vm_compute. reflexivity.
  - vm_compute. reflexivity.
  - left. reflexivity.
Defined.

(** The specification has the outcome of a load unchanged by a rejected
    write.  With the same server and the same new installation, the load
    is [Fresh] when the store accepts the writes, and shows nothing when
    it rejects them. *)
Lemma rejected_write_changes_the_outcome :
  remote_bundle api (online_store_full morning [dua1; dua2]) "12"
  = Some (morning, [dua1; dua2]) /\
  Fresh
    (run_fetchData api (online morning [dua1; dua2]) "12" fresh_install)
    morning [dua1; dua2] /\
  ~ Fresh
      (run_fetchData api (online_store_full morning [dua1; dua2]) "12"
         fresh_install)
      morning [dua1; dua2] /\
  render
    (ui (load api (online_store_full morning [dua1; dua2]) "12"
           fresh_install))
  = ContentView [].
Proof.
  split; [vm_compute; reflexivity |].
  split; [| split; [| vm_compute; reflexivity]].
  - repeat split; try (vm_compute; reflexivity).
    apply (bool_decide_unpack _). vm_compute. exact I.
  - intros (_ & _ & Hshown & _). vm_compute in Hshown. discriminate Hshown.
Qed.

(** A load online, then a Retry against a server that does not answer;
    and a Retry online, then a load offline.  Neither finds the bundle
    the other has stored. *)
Lemma cache_namespaces_do_not_meet_witness :
  Unavailable
    (run_retry api unreachable_server "12"
       (load api (online morning [dua1; dua2]) "12" fresh_install))
    "No internet connection and no cached data available." /\
  Unavailable
    (run_fetchData api offline "12"
       (retry api (online morning [dua1; dua2]) "12" fresh_install))
    "No internet connection and no cached data available. Please connect to the internet and try again.".
Proof.
  split.
  - apply (cache_namespaces_do_not_meet api (online morning [dua1; dua2])
             unreachable_server "12" fresh_install).
    + vm_compute. reflexivity.
    + vm_compute. reflexivity.
    + reflexivity.
    + reflexivity.
  - apply (cache_namespaces_do_not_meet api (online morning [dua1; dua2])
             offline "12" fresh_install).
    + vm_compute. reflexivity.
    + reflexivity.
    + split; reflexivity.
    + reflexivity.
Defined.

(** Three successful loads while the remote serves one bundle. *)
Lemma repeated_refresh_is_idempotent_witness :
  auto_cache_read
    (store (load api (online morning [dua1; dua2]) "12" fresh_install)) "12"
  = (Some (print_subcategory morning), Some (print_duas [dua1; dua2])) /\
  store
    (loads api [online morning [dua1; dua2]; online morning [dua1; dua2]]
       "12" (load api (online morning [dua1; dua2]) "12" fresh_install))
  = store (load api (online morning [dua1; dua2]) "12" fresh_install).
Proof.
  refine (repeated_refresh_is_idempotent api (online morning [dua1; dua2])
           [online morning [dua1; dua2]; online morning [dua1; dua2]]
           "12" fresh_install morning [dua1; dua2] _ _ _).
  - vm_compute. reflexivity.
  - repeat (constructor; [vm_compute; reflexivity |]). constructor.
  - repeat split; apply (bool_decide_unpack _); vm_compute; exact I.
Defined.

(** Online on a new installation, with a server that does not answer. *)
Lemma failed_fetch_without_cache_is_silent_witness :
  let f := run_fetchData api unreachable_server "12" fresh_install in
  error (ui (world f)) = None /\
  loading (ui (world f)) = false /\
  subcategory (ui (world f)) = subcategory (ui fresh_install) /\
  subcategoryDuas (ui (world f)) = subcategoryDuas (ui fresh_install) /\
  render (ui (world f)) = ContentView (subcategoryDuas (ui fresh_install)) /\
  (forall s d, ~ Fresh f s d) /\
  (forall s d, ~ Cached f s d) /\
  (forall reason, ~ Unavailable f reason).
Proof.
  apply (failed_fetch_without_cache_is_silent api unreachable_server "12"
           fresh_install).
  - reflexivity.
  - split; reflexivity.
  - vm_compute. reflexivity.
  - reflexivity.
  - vm_compute. reflexivity.
Defined.

(** ** Further runs of the model *)

(** A Retry finds what an earlier Retry stored. *)
Example retry_reads_its_own_cache :
  render
    (ui (retry api unreachable_server "12"
           (retry api (online morning [dua1]) "12" fresh_install)))
  = ContentView [dua1].
Proof. vm_compute. reflexivity. Qed.

(** A load with no id stops at the guard. *)
Example load_without_id :
  render (ui (load api (online morning [dua1]) "" fresh_install))
  = ErrorView "No subcategory ID found".
Proof. vm_compute. reflexivity. Qed.

(** With an entry in the store and a newer bundle on the server, the
    screen keeps the entry and the store takes the newer bundle. *)
Example stale_while_revalidate :
  render
    (ui (load api (online morning2 [dua1]) "12"
           (with_cache morning [dua1; dua2])))
  = ContentView [dua1; dua2] /\
  auto_cache_read
    (store (load api (online morning2 [dua1]) "12"
              (with_cache morning [dua1; dua2]))) "12"
  = (Some (print_subcategory morning2), Some (print_duas [dua1])).
Proof. split; vm_compute; reflexivity. Qed.

(** A write rejected after the first one went through leaves a mixed
    entry: the new subcategory with the old duas. *)
Example second_write_rejected :
  auto_cache_read
    (store
       (load api
          {| isConnected := true; fetch := serving morning2 [dua1];
             getItem_rejects := never;
             setItem_rejects := fun key => String.eqb key "duas_12_cache" |}
          "12" (with_cache morning [dua1; dua2]))) "12"
  = (Some (print_subcategory morning2), Some (print_duas [dua1; dua2])).
Proof. vm_compute. reflexivity. Qed.

(** ** Further properties of the screen *)

(** *** Texts *)

Lemma append_assoc (a b c : string) : (a +:+ b) +:+ c = a +:+ b +:+ c.
Proof.
  induction a as [|x a IH]; [done | exact (f_equal (String x) IH)].
Qed.

Lemma append_length (a b : string) :
  String.length (a +:+ b) = String.length a + String.length b.
Proof. induction a as [|x a IH]; simpl; [done | by rewrite IH]. Qed.

(** Two appends that agree and whose first parts have one length agree
    part by part. *)
Lemma append_eq_inv (a b c d : string) :
  String.length a = String.length c ->
  a +:+ b = c +:+ d -> a = c /\ b = d.
Proof.
  revert c. induction a as [|x a IH]; intros [|y c] Hlen Heq; simpl in *;
    try done.
  injection Heq as -> Heq. destruct (IH c) as [-> ->]; [lia | done | done].
Qed.

(** The same, from the lengths of the second parts. *)
Lemma append_eq_inv_r (a b c d : string) :
  String.length b = String.length d ->
  a +:+ b = c +:+ d -> a = c /\ b = d.
Proof.
  intros Hlen Heq. apply append_eq_inv; [|done].
  apply (f_equal String.length) in Heq. rewrite !append_length in Heq. lia.
Qed.

(** X1.  The text that [handleTextShare] shares is the text that
    [copyToClipboard] copies, with the name of the dua and a blank line
    before it and a blank line and the line of the app after it; and in
    both an Urdu translation that is missing or empty leaves no
    paragraph behind, the reference following the translation
    directly. *)
Theorem shared_text_wraps_copied_text (dua : Dua) :
  textToShare dua
  = name dua +:+ LF +:+ LF +:+ textToCopy dua +:+ LF +:+ LF +:+
    "Shared from Duaon AI" /\
  (truthy_opt (urdu_translation dua) = false ->
   textToCopy dua
   = arabic_text dua +:+ LF +:+ LF +:+ translation dua +:+ LF +:+ LF +:+
     "Reference: " +:+ reference dua).
Proof.
  split.
  - unfold textToShare, textToCopy. by rewrite !append_assoc.
  - unfold textToCopy, urdu_paragraph, truthy_opt.
    destruct (urdu_translation dua) as [u|]; [intros -> | intros _]; done.
Qed.

(** *** The time format *)

(** The seconds of a minute, printed and padded, take two characters
    and differ for different seconds. *)
Lemma padded_second_length (s : Z) :
  (0 ≤ s < 60)%Z -> String.length (padded_second s) = 2.
Proof.
  intros Hs.
  assert (Forall (fun x => String.length (padded_second x) = 2)
            (seqZ 0 60)) as Hall.
  { apply Forall_forall. intros x Hx.
    apply (bool_decide_unpack _). revert x Hx. apply Forall_forall.
    apply (bool_decide_unpack _). vm_compute. exact I. }
  rewrite Forall_forall in Hall. apply Hall. apply elem_of_seqZ. lia.
Qed.

Lemma padded_second_inj (s t : Z) :
  (0 ≤ s < 60)%Z -> (0 ≤ t < 60)%Z ->
  padded_second s = padded_second t -> s = t.
Proof.
  intros Hs Ht.
  assert (Forall (fun x => Forall (fun y =>
            padded_second x = padded_second y -> x = y) (seqZ 0 60))
            (seqZ 0 60)) as Hall.
  { apply (bool_decide_unpack _). vm_compute. exact I. }
  rewrite Forall_forall in Hall.
  specialize (Hall s). rewrite Forall_forall in Hall.
  apply Hall; apply elem_of_seqZ; lia.
Qed.

(** X2.  For a whole number of milliseconds from 0 to
    [Number.MAX_SAFE_INTEGER], [formatTime] prints the whole minutes, a
    colon and the seconds of the minute on exactly two characters; the
    minutes stay below 10^21, where a number is printed in decimal
    digits; two such times print alike exactly when they have the same
    whole seconds. *)
Theorem formatTime_shows_whole_seconds (a b : Z) :
  safe_integer a -> safe_integer b ->
  (exists seconds,
     formatTime a = pretty (a `div` 60000)%Z +:+ ":" +:+ seconds /\
     String.length seconds = 2) /\
  (0 ≤ a `div` 60000 < 10 ^ 21)%Z /\
  (formatTime a = formatTime b <-> (a `div` 1000 = b `div` 1000)%Z).
Proof.
  unfold safe_integer, MAX_SAFE_INTEGER. intros [Ha Ha'] [Hb Hb'].
  assert (forall x, (0 ≤ x)%Z ->
            (0 ≤ (x `div` 1000) `rem` 60 < 60)%Z) as Hrange.
  { intros x Hx. apply Z.rem_bound_pos; [|lia].
    apply Z.div_pos; lia. }
  split; [|split].
  - exists (padded_second ((a `div` 1000) `rem` 60)%Z). split.
    + unfold formatTime, padded_second.
      by rewrite Z.div_div by lia.
    + by apply padded_second_length, Hrange.
  - split; [apply Z.div_pos; lia |].
    apply Z.div_lt_upper_bound; lia.
  - split; [|by unfold formatTime; intros ->].
    unfold formatTime. fold (padded_second ((a `div` 1000) `rem` 60)%Z).
    fold (padded_second ((b `div` 1000) `rem` 60)%Z).
    rewrite <- !append_assoc. intros Heq.
    apply append_eq_inv_r in Heq as [Hmin Hsec];
      [|by rewrite !padded_second_length by by apply Hrange].
    apply append_eq_inv_r in Hmin as [Hmin _]; [|done].
    apply (inj pretty) in Hmin.
    apply padded_second_inj in Hsec; [|by apply Hrange..].
    rewrite (Z.quot_rem' (a `div` 1000) 60).
    rewrite (Z.quot_rem' (b `div` 1000) 60).
    rewrite !Z.quot_div_nonneg by (try apply Z.div_pos; lia).
    by rewrite Hmin, Hsec.
Qed.

(** Ninety-one seconds and a half, and one second more. *)
Lemma formatTime_shows_whole_seconds_witness :
  (exists seconds,
     formatTime 91500 = pretty (91500 `div` 60000)%Z +:+ ":" +:+ seconds /\
     String.length seconds = 2) /\
  (0 ≤ 91500 `div` 60000 < 10 ^ 21)%Z /\
  (formatTime 91500 = formatTime 92500
   <-> (91500 `div` 1000 = 92500 `div` 1000)%Z).
Proof.
  apply (formatTime_shows_whole_seconds 91500 92500).
  - unfold safe_integer, MAX_SAFE_INTEGER. lia.
  - unfold safe_integer, MAX_SAFE_INTEGER. lia.
Defined.

(** *** Running a handler

    The goal has the form [run = F -> P F]; the run is decided one
    pending condition at a time, in the order the handler meets them. *)

#[local] Arguments bool_decide : simpl never.
#[local] Arguments favoriteErrorMessage : simpl never.
#[local] Arguments number_toString : simpl never.
#[local] Arguments textToShare : simpl never.
#[local] Arguments textToCopy : simpl never.

Ltac call_head t :=
  lazymatch t with
  | ?g _ => call_head g
  | _ => t
  end.

Ltac pending t :=
  lazymatch t with
  | match ?x with _ => _ end => pending x
  | negb ?x => pending x
  | andb ?x _ => pending x
  | orb ?x _ => pending x
  | ?g ?a =>
      let h := call_head g in
      lazymatch h with
      | match ?x with _ => _ end => pending x
      | _ =>
          lazymatch a with
          | context [match _ with _ => _ end] => pending a
          | _ => t
          end
      end
  | _ => t
  end.

Ltac decide_pending a :=
  let E := fresh "E" in
  destruct a eqn:E; try congruence; simplify_eq.

(** The fields of the state, which reduce on a record. *)
Ltac read_fields :=
  cbn [page player isFavorite favLoading toast isSharing viewShotRefs
       effects logs sound isPlaying isLoading playbackPosition
       playbackDuration showToast toastMessage toastType store ui
       subcategory subcategoryDuas loading error soundObjects] in *.

(** Opens the records of the state, so that every update reduces. *)
Ltac open_state :=
  repeat match goal with
         | s : Screen |- _ =>
             let pg := fresh "pg" in
             let pl := fresh "pl" in
             let fav := fresh "fav" in
             let fl := fresh "fl" in
             let tst := fresh "tst" in
             let sh := fresh "sh" in
             let refs := fresh "refs" in
             let eff := fresh "eff" in
             let lg := fresh "lg" in
             destruct s as [pg pl fav fl tst sh refs eff lg]
         | p : Player |- _ =>
             let snd := fresh "snd" in
             let playing := fresh "playing" in
             let ldg := fresh "ldg" in
             let pos := fresh "pos" in
             let dur := fresh "dur" in
             destruct p as [snd playing ldg pos dur]
         | t : Toast |- _ =>
             let shown := fresh "shown" in
             let msg := fresh "msg" in
             let ty := fresh "ty" in
             destruct t as [shown msg ty]
         | w : World |- _ =>
             let st := fresh "st" in
             let u := fresh "u" in
             destruct w as [st u]
         | u : UI |- _ =>
             let sub := fresh "sub" in
             let ds := fresh "ds" in
             let ld := fresh "ld" in
             let err := fresh "err" in
             let so := fresh "so" in
             destruct u as [sub ds ld err so]
         end;
  read_fields.

(** Runs the handlers, the monad and the setters by value, and nothing
    else. *)
Ltac reduce_run :=
  cbv beta iota zeta delta
    [after press handleFavoriteToggle checkFavoriteStatus
     handleShare handleTextShare playSound copyToClipboard
     showToastMessage onPlaybackStatusUpdate hideToast onToastHidden
     storage_getItem finally_do catching raise nothing await_done
     await_value perform console_message
     setIsFavorite setFavLoading setIsSharing setToastMessage
     setToastType setShowToast setSound setIsPlaying setIsLoading
     setPlaybackPosition setPlaybackDuration
     update_player update_toast update
     mbind mret Task_bind Task_ret snd fst negb
     page player isFavorite favLoading toast isSharing viewShotRefs
     effects logs sound isPlaying isLoading playbackPosition
     playbackDuration showToast toastMessage toastType store ui
     subcategory subcategoryDuas loading error soundObjects
     isLoaded positionMillis durationMillis status_isPlaying didJustFinish
     truthy_opt].

Ltac handler_step :=
  lazymatch goal with
  | |- ?X = _ -> _ =>
      lazymatch X with
      | Build_Screen _ _ _ _ _ _ _ _ _ => fail
      | context [match _ with _ => _ end] =>
          let a := pending X in decide_pending a; reduce_run
      end
  end.

Ltac run_handler :=
  reduce_run; repeat handler_step; intros <-; read_fields.

(** Names the screen a handler leaves, and puts the goal in the form
    [run_handler] expects. *)
Ltac name_run :=
  open_state;
  match goal with
  | |- context [after ?h ?s] =>
      let F := fresh "F" in
      let HF := fresh "HF" in
      remember (after h s) as F eqn:HF;
      symmetry in HF; revert HF
  end.

(** The hypotheses brought up to date with the decisions taken. *)
Ltac update_facts :=
  repeat match goal with
         | H : context [match _ with _ => _ end] |- _ => progress (cbn in H)
         | E : ?a = _, H : context [?a] |- _ =>
             first [ is_var a; fail 1
                   | lazymatch type of H with
                     | a = _ => fail
                     | _ => rewrite E in H
                     end ]
         end.

(** *** The favourite button *)

Section HandlerProperties.
Variable API_URL : string.
Variable parseInt : string -> number.

(** X3.  The favourite button of any card acts on the first dua of the
    list.  With a token in the store and a request that resolves, the
    press flips [isFavorite], sends exactly one request (a DELETE of the
    first id when the dua was a favourite, a POST otherwise) under the
    bearer token, shows the success toast and ends with [favLoading]
    off. *)
Theorem favorite_press_toggles svc k card index s first rest tok :
  favLoading s = false ->
  subcategoryDuas (ui (page s)) = first :: rest ->
  getItem_error svc "token" = None ->
  store (page s) !! "token" = Some tok ->
  truthy tok = true ->
  (if isFavorite s then
     axios_delete svc
       (API_URL +:+ "/api/favorites/" +:+ number_toString (parseInt (id first)))
       ("Bearer " +:+ tok)
   else
     axios_post svc (API_URL +:+ "/api/favorites")
       (parseInt (id first)) (parseInt k) ("Bearer " +:+ tok)) = None ->
  let s' :=
    after (press API_URL parseInt svc k card index favorite_button) s in
  isFavorite s' = negb (isFavorite s) /\
  favLoading s' = false /\
  toast s'
  = shown_toast
      (if isFavorite s then "Removed from favorites"
       else "Added to favorites") toast_success /\
  effects s'
  = (effects s ++
     [if isFavorite s then
        axios_delete_call
          (API_URL +:+ "/api/favorites/" +:+
           number_toString (parseInt (id first)))
          ("Bearer " +:+ tok)
      else
        axios_post_call (API_URL +:+ "/api/favorites")
          (parseInt (id first)) (parseInt k) ("Bearer " +:+ tok)] ++
     toast_calls toast_success)%list.
Proof.
  intros Hfav Hlist Hread Htok Htruthy Hanswer s'. subst s'.
  name_run. run_handler.
  all: update_facts; try done.
  all: rewrite <- ?(assoc_L (++)); repeat split; done.
Qed.


(** X4.  Without a list the favourite handler does nothing at all; with
    a list but without a token in the store (absent or empty) it sends
    no request and leaves [isFavorite] alone: it shows the warning toast
    and schedules the move to the login screen. *)
Theorem favorite_press_needs_list_and_login svc k card index s :
  favLoading s = false ->
  getItem_error svc "token" = None ->
  let s' :=
    after (press API_URL parseInt svc k card index favorite_button) s in
  (subcategoryDuas (ui (page s)) = [] -> s' = s) /\
  (subcategoryDuas (ui (page s)) <> [] ->
   truthy_opt (store (page s) !! "token") = false ->
   isFavorite s' = isFavorite s /\
   favLoading s' = false /\
   toast s' = shown_toast "Please log in to save favorites" toast_warning /\
   effects s'
   = (effects s ++ toast_calls toast_warning ++
      [router_push_after "/login" 2000%Z])%list).
Proof.
  intros Hfav Hread s'. subst s'. split.
  - intros Hempty. name_run. run_handler. all: update_facts; done.
  - intros Hlist Htoken. unfold truthy_opt in Htoken.
    name_run. run_handler.
    all: update_facts; try done.
    all: rewrite <- ?(assoc_L (++)); repeat split; done.
Qed.

(** X5.  When the token cannot be read or the request is rejected, the
    press leaves [isFavorite] as it was, ends with [favLoading] off and
    shows an error toast with the message picked from what was thrown:
    for an axios error the rate-limit text on status 429, else the
    error text of the response if it has one; for any other value its
    own message; the general text otherwise. *)
Theorem favorite_press_failure svc k card index s first rest thrown :
  favLoading s = false ->
  subcategoryDuas (ui (page s)) = first :: rest ->
  (getItem_error svc "token" = Some thrown \/
   exists tok,
     getItem_error svc "token" = None /\
     store (page s) !! "token" = Some tok /\
     truthy tok = true /\
     (if isFavorite s then
        axios_delete svc
          (API_URL +:+ "/api/favorites/" +:+
           number_toString (parseInt (id first)))
          ("Bearer " +:+ tok)
      else
        axios_post svc (API_URL +:+ "/api/favorites")
          (parseInt (id first)) (parseInt k) ("Bearer " +:+ tok))
     = Some thrown) ->
  let s' :=
    after (press API_URL parseInt svc k card index favorite_button) s in
  (isFavorite s' = isFavorite s /\
   favLoading s' = false /\
   toast s' = shown_toast (favoriteErrorMessage thrown) toast_error) /\
  (forall r, status r = 429%Z ->
     favoriteErrorMessage (AxiosError (Some r))
     = "Too many requests. Please try again later.") /\
  (forall r message, status r <> 429%Z ->
     data_error r = Some message -> truthy message = true ->
     favoriteErrorMessage (AxiosError (Some r)) = message) /\
  (forall message, truthy message = true ->
     favoriteErrorMessage (OtherError message) = message) /\
  favoriteErrorMessage (AxiosError None) = "Failed to update favorite status".
Proof.
  intros Hfav Hlist Hthrown s'. subst s'. split; [|repeat split].
  - destruct Hthrown as [Hread | (tok & Hread & Htok & Htruthy & Hanswer)].
    + name_run. run_handler. all: update_facts; done.
    + name_run. run_handler. all: update_facts; done.
  - intros r Hr. unfold favoriteErrorMessage.
    by rewrite bool_decide_eq_true_2.
  - intros r message Hr Hdata Htruthy. unfold favoriteErrorMessage.
    rewrite bool_decide_eq_false_2 by done. by rewrite Hdata, Htruthy.
  - intros message Htruthy. unfold favoriteErrorMessage. by rewrite Htruthy.
Qed.

(** X6.  Two presses in a row, with a token and requests that resolve,
    bring [isFavorite] back to what it was: one adds and one removes,
    both for the first dua. *)
Theorem favorite_press_twice svc k card index s first rest tok :
  favLoading s = false ->
  subcategoryDuas (ui (page s)) = first :: rest ->
  getItem_error svc "token" = None ->
  store (page s) !! "token" = Some tok ->
  truthy tok = true ->
  axios_delete svc
    (API_URL +:+ "/api/favorites/" +:+ number_toString (parseInt (id first)))
    ("Bearer " +:+ tok) = None ->
  axios_post svc (API_URL +:+ "/api/favorites")
    (parseInt (id first)) (parseInt k) ("Bearer " +:+ tok) = None ->
  let toggle := press API_URL parseInt svc k card index favorite_button in
  let s1 := after toggle s in
  let s2 := after toggle s1 in
  isFavorite s1 = negb (isFavorite s) /\
  isFavorite s2 = isFavorite s /\
  favLoading s2 = false /\
  exists first_call second_call,
    effects s2
    = (effects s ++ [first_call] ++ toast_calls toast_success ++
       [second_call] ++ toast_calls toast_success)%list /\
    (if isFavorite s then
       first_call
       = axios_delete_call
           (API_URL +:+ "/api/favorites/" +:+
            number_toString (parseInt (id first)))
           ("Bearer " +:+ tok) /\
       second_call
       = axios_post_call (API_URL +:+ "/api/favorites")
           (parseInt (id first)) (parseInt k) ("Bearer " +:+ tok)
     else
       first_call
       = axios_post_call (API_URL +:+ "/api/favorites")
           (parseInt (id first)) (parseInt k) ("Bearer " +:+ tok) /\
       second_call
       = axios_delete_call
           (API_URL +:+ "/api/favorites/" +:+
            number_toString (parseInt (id first)))
           ("Bearer " +:+ tok)).
Proof.
  intros Hfav Hlist Hread Htok Htruthy Hdelete Hpost toggle s1 s2.
  subst s2 s1 toggle.
  open_state.
  match goal with
  | |- context [after ?h (after ?h ?s0)] =>
      remember (after h s0) as s1 eqn:H1;
      remember (after h s1) as s2 eqn:H2;
      symmetry in H1, H2; revert H2; revert H1
  end.
  run_handler. all: update_facts; try done.
  all: run_handler; update_facts; try done.
  all: rewrite <- ?(assoc_L (++)); repeat split; try done.
  all: eexists _, _; split; [reflexivity | done].
Qed.

(** X7.  Whatever the platform answers, a press on the favourite button
    leaves the page, the player and the sharing flag alone and ends with
    [favLoading] off when there is a list; and it changes [isFavorite]
    only by flipping it after the request for the first dua has
    resolved. *)
Theorem favorite_changes_only_when_confirmed svc k card index s :
  favLoading s = false ->
  let s' :=
    after (press API_URL parseInt svc k card index favorite_button) s in
  page s' = page s /\
  player s' = player s /\
  isSharing s' = isSharing s /\
  (subcategoryDuas (ui (page s)) <> [] -> favLoading s' = false) /\
  (isFavorite s' = isFavorite s \/
   isFavorite s' = negb (isFavorite s) /\
   exists first rest tok,
     subcategoryDuas (ui (page s)) = first :: rest /\
     store (page s) !! "token" = Some tok /\
     (if isFavorite s then
        axios_delete svc
          (API_URL +:+ "/api/favorites/" +:+
           number_toString (parseInt (id first)))
          ("Bearer " +:+ tok)
      else
        axios_post svc (API_URL +:+ "/api/favorites")
          (parseInt (id first)) (parseInt k) ("Bearer " +:+ tok))
     = None).
Proof.
  intros Hfav s'. subst s'.
  name_run. run_handler.
  all: repeat split; try done.
  all: try (by left).
  all: right; split; [done|]; by eexists _, _, _.
Qed.

(** X8.  [checkFavoriteStatus] does nothing without a list; with one it
    always ends with [favLoading] off, takes the answer of
    [checkFavorite] for the first dua as the new [isFavorite] when a
    token is stored, and in every other case (no token, a rejected read,
    a rejected check) leaves [isFavorite] as it was. *)
Theorem checkFavoriteStatus_follows_first_dua svc s :
  let s' := after (checkFavoriteStatus svc) s in
  (subcategoryDuas (ui (page s)) = [] -> s' = s) /\
  (subcategoryDuas (ui (page s)) <> [] -> favLoading s' = false) /\
  (forall first rest tok answer,
     subcategoryDuas (ui (page s)) = first :: rest ->
     getItem_error svc "token" = None ->
     store (page s) !! "token" = Some tok ->
     truthy tok = true ->
     checkFavorite svc (id first) = inr answer ->
     isFavorite s' = answer) /\
  (isFavorite s' <> isFavorite s ->
   exists first rest,
     subcategoryDuas (ui (page s)) = first :: rest /\
     checkFavorite svc (id first) = inr (isFavorite s') /\
     truthy_opt (store (page s) !! "token") = true).
Proof.
  intros s'. subst s'. repeat split.
  - intros Hempty. name_run. run_handler. all: update_facts; done.
  - intros Hlist. name_run. run_handler. all: update_facts; done.
  - intros first rest tok answer Hlist Hread Htok Htruthy Hanswer.
    name_run. run_handler. all: update_facts; done.
  - name_run. run_handler. all: try done.
    all: intros _; eexists _, _; repeat split; try done.
    all: by rewrite ?E0, ?E1; cbn; rewrite ?E2.
Qed.

(** *** Sharing a card *)

(** X9.  Whatever the platform answers, [handleShare] ends with
    [isSharing] off, and it opens the share sheet only for the file it
    has just captured from the mounted card of the dua, under the name
    of the dua, and only when sharing is available. *)
Theorem handleShare_restores_the_card svc dua index s :
  let s' := after (fun _ => handleShare svc dua index) s in
  isSharing s' = false /\
  viewShotRefs s' = viewShotRefs s /\
  exists calls,
    effects s' = (effects s ++ calls)%list /\
    forall uri title,
      Sharing_shareAsync_call uri title ∈ calls ->
      Sharing_isAvailableAsync svc = inr true /\
      id dua ∈ viewShotRefs s /\
      captureRef svc (id dua) = inr uri /\
      truthy uri = true /\
      title = name dua.
Proof.
  intros s'. subst s'. name_run. run_handler.
  all: repeat split; try done.
  all: rewrite <- ?(assoc_L (++)); eexists; split; [reflexivity|].
  all: intros uri title Hin.
  all: repeat (apply elem_of_cons in Hin as [Hin|Hin]; [try discriminate Hin|]).
  all: try (by apply elem_of_nil in Hin).
  all: injection Hin as -> ->.
  all: repeat split; try done.
  all: match goal with
       | E : bool_decide _ = true |- _ =>
           apply bool_decide_eq_true_1 in E; exact E
       end.
Qed.

(** X10.  A share that goes through shows no toast; every failure
    (sharing not available, a card that is not mounted, a capture that
    is rejected or gives no file, a share sheet that is rejected) shows
    an error toast. *)
Theorem handleShare_reports_every_failure svc dua index s :
  let s' := after (fun _ => handleShare svc dua index) s in
  (share_goes_through svc dua s -> toast s' = toast s) /\
  (~ share_goes_through svc dua s ->
   showToast (toast s') = true /\ toastType (toast s') = toast_error).
Proof.
  intros s'. subst s'. unfold share_goes_through. split.
  - intros (Havail & Href & uri & Hcapture & Htruthy & Hshare).
    pose proof (bool_decide_eq_true_2 _ Href) as Hmounted.
    name_run. run_handler. all: update_facts; done.
  - intros Hfail. name_run. run_handler. all: try done.
    exfalso. apply Hfail. repeat split; try done.
    + match goal with
      | E : bool_decide _ = true |- _ =>
          apply bool_decide_eq_true_1 in E; exact E
      end.
    + by eexists.
Qed.

(** X11.  No button of a card changes the page (the store and the
    loaded bundle), the player or the mounted cards; the copy and the
    text buttons change nothing but the toast and the record of calls,
    the clipboard receiving the text of the card and the share sheet the
    text of the card with its title. *)
Theorem card_buttons_keep_the_page svc k dua index b s :
  let s' := after (press API_URL parseInt svc k dua index b) s in
  page s' = page s /\
  player s' = player s /\
  viewShotRefs s' = viewShotRefs s /\
  (b = copy_button ->
   isFavorite s' = isFavorite s /\ favLoading s' = favLoading s /\
   isSharing s' = isSharing s /\
   toast s' = shown_toast "Dua copied to clipboard" toast_success /\
   effects s'
   = (effects s ++ [Clipboard_setString (textToCopy dua)] ++
      toast_calls toast_success)%list) /\
  (b = text_button ->
   isFavorite s' = isFavorite s /\ favLoading s' = favLoading s /\
   isSharing s' = isSharing s /\
   exists calls,
     effects s'
     = (effects s ++ [Share_share_call (textToShare dua) (name dua)] ++
        calls)%list /\
     (Share_share svc (textToShare dua) (name dua) = None ->
      calls = [] /\ toast s' = toast s) /\
     (Share_share svc (textToShare dua) (name dua) <> None ->
      calls = toast_calls toast_error /\
      toast s' = shown_toast "Error sharing dua text" toast_error)).
Proof.
  intros s'. subst s'. destruct b.
  - name_run. run_handler.
    repeat split; try done.
    all: rewrite <- ?(assoc_L (++)); done.
  - name_run. run_handler. all: by repeat split.
  - name_run. run_handler.
    all: repeat split; try done.
    all: rewrite <- ?(assoc_L (++)); eexists; split; [reflexivity|].
    all: by split.
  - name_run. run_handler. all: by repeat split.
Qed.

(** *** The player *)

(** X12.  With a sound loaded and a player that answers, [playSound] is
    a toggle: it pauses when playing and plays when paused, flipping
    [isPlaying]; it restarts from 0 exactly when the position has
    reached the duration; and it never creates a second sound. *)
Theorem playSound_toggles_loaded_sound svc audioSource s current :
  sound (player s) = Some current ->
  Sound_pause svc current = None ->
  Sound_play svc current = None ->
  Sound_setPosition svc current 0 = None ->
  let s' := after (playSound svc audioSource) s in
  isPlaying (player s') = negb (isPlaying (player s)) /\
  sound (player s') = Some current /\
  isLoading (player s') = isLoading (player s) /\
  effects s'
  = (effects s ++
     if isPlaying (player s) then [Sound_pauseAsync current]
     else if bool_decide (playbackDuration (player s)
                          ≤ playbackPosition (player s))%Z
          then [Sound_setPositionAsync current 0; Sound_playAsync current]
          else [Sound_playAsync current])%list.
Proof.
  intros Hsound Hpause Hplay Hseek s'. subst s'.
  name_run. run_handler.
  all: update_facts; rewrite <- ?(assoc_L (++)); by repeat split.
Qed.


(** X14.  Whatever the platform answers, [playSound] does not leave the
    loading flag on: [isLoading] is on afterwards only if it was on
    before and a sound was already loaded. *)
Theorem playSound_never_leaves_loading_on svc audioSource s :
  let s' := after (playSound svc audioSource) s in
  isLoading (player s') = true ->
  isLoading (player s) = true /\ is_Some (sound (player s)).
Proof.
  intros s'. subst s'. name_run. run_handler.
  all: try done.
  all: intros ->; by split.
Qed.

(** X15.  The first [playSound] with a player that fails.  When the
    sound cannot be created nothing is loaded and nothing is played;
    when it is created and the play is rejected, the new sound stays in
    the state and is not unloaded.  In both cases [isPlaying] is as
    before and [isLoading] is off. *)
Theorem playSound_first_start_failure svc audioSource s thrown :
  sound (player s) = None ->
  let s' := after (playSound svc audioSource) s in
  (Sound_createAsync svc audioSource = Some thrown ->
   sound (player s') = None /\
   isPlaying (player s') = isPlaying (player s) /\
   isLoading (player s') = false /\
   effects s' = (effects s ++ [Sound_createAsync_call audioSource])%list) /\
  (Sound_createAsync svc audioSource = None ->
   Sound_play svc audioSource = Some thrown ->
   sound (player s') = Some audioSource /\
   isPlaying (player s') = isPlaying (player s) /\
   isLoading (player s') = false /\
   effects s'
   = (effects s ++
      [Sound_createAsync_call audioSource; Sound_playAsync audioSource])%list).
Proof.
  intros Hsound s'. subst s'. split.
  - intros Hcreate. name_run. run_handler.
    all: update_facts; rewrite <- ?(assoc_L (++)); by repeat split.
  - intros Hcreate Hplay. name_run. run_handler.
    all: update_facts; rewrite <- ?(assoc_L (++)); by repeat split.
Qed.

(** X16.  With a sound loaded, a command of the player that is rejected
    (the pause, the rewind or the play) makes [playSound] unload that
    sound: when the unload resolves the state holds no sound and
    [isLoading] is off, while [isPlaying] keeps the value it had. *)
Theorem playSound_unloads_on_failure svc audioSource s current thrown :
  sound (player s) = Some current ->
  (isPlaying (player s) = true /\ Sound_pause svc current = Some thrown) \/
  (isPlaying (player s) = false /\
   (playbackDuration (player s) ≤ playbackPosition (player s))%Z /\
   Sound_setPosition svc current 0 = Some thrown) \/
  (isPlaying (player s) = false /\
   ((playbackDuration (player s) ≤ playbackPosition (player s))%Z ->
    Sound_setPosition svc current 0 = None) /\
   Sound_play svc current = Some thrown) ->
  Sound_unload svc current = None ->
  let s' := after (playSound svc audioSource) s in
  sound (player s') = None /\
  isLoading (player s') = false /\
  isPlaying (player s') = isPlaying (player s) /\
  exists calls,
    effects s' = (effects s ++ calls ++ [Sound_unloadAsync current])%list.
Proof.
  intros Hsound Hfails Hunload s'. subst s'.
  destruct Hfails as [[Hplaying Hpause]
                     | [(Hpaused & Hend & Hseek) | (Hpaused & Hseek & Hplay)]].
  - name_run. run_handler.
    all: update_facts; try done.
    all: repeat split; try done.
    all: rewrite <- ?(assoc_L (++)); by eexists.
  - pose proof (bool_decide_eq_true_2 _ Hend) as Hend'.
    name_run. run_handler.
    all: update_facts; try done.
    all: repeat split; try done.
    all: rewrite <- ?(assoc_L (++)); by eexists.
  - name_run. run_handler.
    all: update_facts; try done.
    all: try (match goal with
              | E : bool_decide _ = true |- _ =>
                  apply bool_decide_eq_true_1 in E;
                  specialize (Hseek E); congruence
              end).
    all: repeat split; try done.
    all: rewrite <- ?(assoc_L (++)).
    all: first [by eexists | by eexists [_; _]].
Qed.

End HandlerProperties.

(** *** More on the load and on Retry *)

Section LoaderProperties.
Variable API_URL : string.
Context {Json_Subcategory : Json Subcategory}.
Context {Json_Duas : Json (list Dua)}.

#[local] Arguments subcategory_cache_key : simpl never.
#[local] Arguments duas_cache_key : simpl never.
#[local] Arguments subcategory_retry_key : simpl never.
#[local] Arguments duas_retry_key : simpl never.
#[local] Arguments subcategory_url : simpl never.
#[local] Arguments duas_url : simpl never.

(** A run of [fetchData] or of the Retry handler, decided one pending
    condition at a time. *)
Ltac unfold_loader :=
  unfold load, retry, run_fetchData, run_retry, fetchData, loadFromCache,
    fetchFromNetwork, onNetworkError, setUpAudio, retry_onPress,
    try_finally, try_catch, NetInfo_fetch,
    AsyncStorage_getItem, AsyncStorage_setItem, do_fetch, json, parse, throw,
    skip, setSubcategory, setSubcategoryDuas, setLoading, setError,
    setSoundObjects, set_subcategoryData, set_duasData, set_fromCache,
    modify_ui, modify_vars, read_var, console_log, start,
    mbind, mret, Async_bind, Async_ret.

Ltac loader_step :=
  lazymatch goal with
  | |- ?X = _ -> _ =>
      lazymatch X with
      | context [match _ with _ => _ end] =>
          let a := pending X in decide_pending a; cbn
      end
  end.

Ltac run_loader :=
  unfold_loader; cbn; repeat loader_step; intros <-; cbn.

Ltac name_load :=
  unfold load, retry;
  match goal with
  | |- context [run_fetchData ?u ?e ?k ?w] =>
      let F := fresh "F" in
      let HF := fresh "HF" in
      remember (run_fetchData u e k w) as F eqn:HF;
      symmetry in HF; revert HF
  | |- context [run_retry ?u ?e ?k ?w] =>
      let F := fresh "F" in
      let HF := fresh "HF" in
      remember (run_retry u e k w) as F eqn:HF;
      symmetry in HF; revert HF
  end.

Ltac no_remote :=
  match goal with
  | H : remote_bundle _ _ _ = None |- _ =>
      exfalso;
      match goal with
      | H1 : JSON_parse (body _) = Some ?s,
        H2 : JSON_parse (body _) = Some ?d |- _ =>
          assert (remote_bundle API_URL _ _ = Some (s, d)) as Hsome
            by (apply remote_bundle_Some; eauto 10);
          rewrite H in Hsome; discriminate Hsome
      end
  end.

(** X17.  Whatever the store and the network answer, the automatic load
    and the Retry handler both end with the spinner off. *)
Theorem loading_always_ends env k w :
  loading (ui (load API_URL env k w)) = false /\
  loading (ui (retry API_URL env k w)) = false.
Proof.
  split.
  - name_load. run_loader. all: done.
  - name_load. run_loader. all: done.
Qed.

(** X18.  A load writes the store at no key but its two cache keys, and
    a Retry at no key but its own two: every other item of the store (the
    login token, the entries of other subcategories) is as before. *)
Theorem loads_write_only_their_keys env k w key :
  (key <> subcategory_cache_key k -> key <> duas_cache_key k ->
   store (load API_URL env k w) !! key = store w !! key) /\
  (key <> subcategory_retry_key k -> key <> duas_retry_key k ->
   store (retry API_URL env k w) !! key = store w !! key).
Proof.
  split; intros Hsub Hduas.
  - name_load. run_loader. all: by rewrite ?lookup_insert_ne.
  - name_load. run_loader. all: by rewrite ?lookup_insert_ne.
Qed.

(** The loop of the audio set-up gives a sound to exactly the indices
    whose dua has an audio path. *)
Lemma initialSoundObjects_spec (duas : list Dua) (n i : nat) :
  i ∈ initialSoundObjects n duas <->
  exists dua,
    (n ≤ i)%nat /\ duas !! (i - n) = Some dua /\
    truthy_opt (audio_path dua) = true.
Proof.
  revert n. induction duas as [|d rest IH]; intros n; simpl.
  - split; [set_solver | by intros (? & _ & ? & _)].
  - rewrite elem_of_union, IH. split.
    + intros [Hhere | (dua & Hle & Hlookup & Haudio)].
      * destruct (truthy_opt (audio_path d)) eqn:Hd; [|set_solver].
        apply elem_of_singleton in Hhere as ->.
        exists d. by rewrite Nat.sub_diag.
      * exists dua. split; [lia|]. split; [|done].
        replace (i - n) with (S (i - S n)) by lia. done.
    + intros (dua & Hle & Hlookup & Haudio).
      destruct (decide (i = n)) as [-> | Hne].
      * left. rewrite Nat.sub_diag in Hlookup. simpl in Hlookup.
        simplify_eq. rewrite Haudio. set_solver.
      * right. exists dua. split; [lia|]. split; [|done].
        replace (i - n) with (S (i - S n)) in Hlookup by lia. done.
Qed.

(** X19.  When a load gets both answers of the server, the sound
    objects follow the fetched list, whether or not that list is the one
    put on screen: an index has a sound exactly when the fetched dua at
    that index has an audio path. *)
Theorem sound_objects_follow_fetched_list env k w
    (s : Subcategory) (d : list Dua) :
  attempts_fetch env k w = true ->
  remote_bundle API_URL env k = Some (s, d) ->
  d <> [] ->
  forall i,
    i ∈ soundObjects (ui (load API_URL env k w)) <->
    exists dua, d !! i = Some dua /\ truthy_opt (audio_path dua) = true.
Proof.
  intros (Hk & [Hr1 Hr2] & Hnet & Hentry)%attempts_fetch_true
    (r1 & r2 & Hf1 & Hok1 & Hp1 & Hf2 & Hok2 & Hp2)%remote_bundle_Some
    Hd i.
  assert (bool_decide (0 < length d) = true) as Hlen.
  { apply bool_decide_eq_true_2. destruct d; [done | simpl; lia]. }
  assert (i ∈ initialSoundObjects 0 d <->
          exists dua, d !! i = Some dua /\ truthy_opt (audio_path dua) = true)
    as Hspec.
  { rewrite initialSoundObjects_spec, Nat.sub_0_r. split.
    - intros (dua & _ & ? & ?). by exists dua.
    - intros (dua & ? & ?). exists dua. split; [lia | done]. }
  destruct Hentry as [Hmiss | (cs & cd & s0 & d0 & Hhit & Hs0 & Hd0)].
  - unfold cache_entry in Hmiss.
    name_load. run_loader. all: update_facts; try done.
  - apply cache_entry_Some in Hhit as (Hcs & Hcd & Htcs & Htcd).
    name_load. run_loader. all: update_facts; try done.
Qed.

(** X20.  The Retry handler never prepares the audio: whatever it shows,
    the sound objects are those of before. *)
Theorem retry_keeps_sound_objects env k w :
  soundObjects (ui (retry API_URL env k w)) = soundObjects (ui w).
Proof. name_load. run_loader. all: done. Qed.

(** X21.  A load without an id stops at its guard: it shows the missing
    id as error, with the spinner off, and leaves the store, the bundle
    on screen and the sound objects as they were, whatever the
    environment is. *)
Theorem load_without_id_changes_nothing env k w :
  truthy k = false ->
  let f := run_fetchData API_URL env k w in
  Unavailable f "No subcategory ID found" /\
  store (world f) = store w /\
  subcategory (ui (world f)) = subcategory (ui w) /\
  subcategoryDuas (ui (world f)) = subcategoryDuas (ui w) /\
  soundObjects (ui (world f)) = soundObjects (ui w) /\
  console f = [].
Proof.
  intros Hk f. subst f. unfold Unavailable, render.
  name_load. run_loader. all: done.
Qed.

(** X22.  When the store accepts the first write of a load and rejects
    the second, the entry is left mixed: the new subcategory text beside
    the duas text of before.  Nothing is shown for it: no error, and no
    bundle unless the cache had one. *)
Theorem second_write_rejected_mixes_entry env k w
    (s : Subcategory) (d : list Dua) :
  attempts_fetch env k w = true ->
  remote_bundle API_URL env k = Some (s, d) ->
  setItem_rejects env (subcategory_cache_key k) = false ->
  setItem_rejects env (duas_cache_key k) = true ->
  store (load API_URL env k w)
  = <[subcategory_cache_key k := JSON_stringify s]> (store w) /\
  auto_cache_read (store (load API_URL env k w)) k
  = (Some (JSON_stringify s), store w !! duas_cache_key k) /\
  error (ui (load API_URL env k w)) = None /\
  ~ refreshed (run_fetchData API_URL env k w).
Proof.
  intros (Hk & [Hr1 Hr2] & Hnet & Hentry)%attempts_fetch_true
    (r1 & r2 & Hf1 & Hok1 & Hp1 & Hf2 & Hok2 & Hp2)%remote_bundle_Some
    Hw1 Hw2.
  unfold auto_cache_read, refreshed.
  destruct Hentry as [Hmiss | (cs & cd & s0 & d0 & Hhit & Hs0 & Hd0)].
  - unfold cache_entry in Hmiss.
    name_load. run_loader. all: update_facts; try done.
    all: rewrite lookup_insert_eq, lookup_insert_ne
      by apply cache_keys_differ.
    all: repeat split; try done; try congruence.
    all: intros Hin; apply (bool_decide_pack _) in Hin; vm_compute in Hin;
      exact Hin.
  - apply cache_entry_Some in Hhit as (Hcs & Hcd & Htcs & Htcd).
    name_load. run_loader. all: update_facts; try done.
    all: rewrite lookup_insert_eq, lookup_insert_ne
      by apply cache_keys_differ.
    all: repeat split; try done; try congruence.
    all: intros Hin; apply (bool_decide_pack _) in Hin; vm_compute in Hin;
      exact Hin.
Qed.

(** What a Retry whose two requests are answered and whose two writes
    are accepted leaves. *)
Lemma retry_success env k w (s : Subcategory) (d : list Dua) :
  remote_bundle API_URL env k = Some (s, d) ->
  setItem_rejects env (subcategory_retry_key k) = false ->
  setItem_rejects env (duas_retry_key k) = false ->
  subcategory (ui (retry API_URL env k w)) = Some s /\
  subcategoryDuas (ui (retry API_URL env k w)) = d /\
  render (ui (retry API_URL env k w)) = ContentView d /\
  store (retry API_URL env k w)
  = <[duas_retry_key k := JSON_stringify d]>
      (<[subcategory_retry_key k := JSON_stringify s]> (store w)).
Proof.
  intros (r1 & r2 & Hf1 & Hok1 & Hp1 & Hf2 & Hok2 & Hp2)%remote_bundle_Some
    Hw1 Hw2.
  unfold render. name_load. run_loader. all: update_facts; done.
Qed.

(** X23.  The error panel after a Retry shows one of two messages, and
    none when both requests are answered and both writes accepted: then
    the fetched bundle is on screen and in the store under the keys of
    Retry. *)
Theorem retry_outcomes env k w :
  (forall reason,
     Unavailable (run_retry API_URL env k w) reason ->
     reason = "No internet connection and no cached data available." \/
     reason
     = "Failed to load data. Please check your connection and try again.") /\
  (forall (s : Subcategory) (d : list Dua),
     remote_bundle API_URL env k = Some (s, d) ->
     setItem_rejects env (subcategory_retry_key k) = false ->
     setItem_rejects env (duas_retry_key k) = false ->
     subcategory (ui (retry API_URL env k w)) = Some s /\
     subcategoryDuas (ui (retry API_URL env k w)) = d /\
     render (ui (retry API_URL env k w)) = ContentView d /\
     retry_cache_read (store (retry API_URL env k w)) k
     = (Some (JSON_stringify s), Some (JSON_stringify d))).
Proof.
  split.
  - intros reason. unfold Unavailable, render.
    name_load. run_loader. all: intros [= <-]; auto.
  - intros s d Hremote Hw1 Hw2.
    destruct (retry_success env k w s d Hremote Hw1 Hw2)
      as (Hs & Hd & Hrender & Hstore).
    repeat split; try done.
    rewrite Hstore. unfold retry_cache_read.
    rewrite lookup_insert_ne by (apply not_eq_sym, retry_keys_differ).
    by rewrite !lookup_insert_eq.
Qed.

(** X24.  What a successful Retry stores, a later Retry whose fetch
    fails finds again, whatever the screen over that store shows when the
    button is pressed (the error panel of a later mount, say): it puts
    the same bundle on screen, with no error.  The bundle is taken to
    survive serialization. *)
Theorem retry_finds_what_retry_stored env env' k w w'
    (s : Subcategory) (d : list Dua) :
  remote_bundle API_URL env k = Some (s, d) ->
  setItem_rejects env (subcategory_retry_key k) = false ->
  setItem_rejects env (duas_retry_key k) = false ->
  survives s ->
  survives d ->
  remote_bundle API_URL env' k = None ->
  getItem_rejects env' (subcategory_retry_key k) = false ->
  getItem_rejects env' (duas_retry_key k) = false ->
  store w' = store (retry API_URL env k w) ->
  subcategory (ui (retry API_URL env' k w')) = Some s /\
  subcategoryDuas (ui (retry API_URL env' k w')) = d /\
  render (ui (retry API_URL env' k w')) = ContentView d.
Proof.
  intros Hremote Hw1 Hw2 [Hts Hps] [Htd Hpd] Hnone Hr1 Hr2 Hleft.
  destruct (retry_success env k w s d Hremote Hw1 Hw2)
    as (_ & _ & _ & Hstore).
  assert (store w' !! subcategory_retry_key k
          = Some (JSON_stringify s)) as Hcs.
  { rewrite Hleft, Hstore.
    rewrite lookup_insert_ne by (apply not_eq_sym, retry_keys_differ).
    by rewrite lookup_insert_eq. }
  assert (store w' !! duas_retry_key k
          = Some (JSON_stringify d)) as Hcd.
  { rewrite Hleft, Hstore. by rewrite lookup_insert_eq. }
  clear Hstore Hleft Hremote Hw1 Hw2. unfold render.
  name_load. run_loader. all: update_facts; try done; no_remote.
Qed.

(** X25.  The cache fallback of Retry shows each item as soon as it has
    parsed it: when the subcategory text parses and the duas text does
    not, the new subcategory is on screen with the list of before, under
    the error panel. *)
Theorem retry_fallback_half_parsed env k w cs cd (s : Subcategory) :
  remote_bundle API_URL env k = None ->
  getItem_rejects env (subcategory_retry_key k) = false ->
  getItem_rejects env (duas_retry_key k) = false ->
  store w !! subcategory_retry_key k = Some cs ->
  store w !! duas_retry_key k = Some cd ->
  truthy cs = true ->
  truthy cd = true ->
  JSON_parse cs = Some s ->
  JSON_parse cd = (None : option (list Dua)) ->
  subcategory (ui (retry API_URL env k w)) = Some s /\
  subcategoryDuas (ui (retry API_URL env k w)) = subcategoryDuas (ui w) /\
  Unavailable (run_retry API_URL env k w)
    "Failed to load data. Please check your connection and try again.".
Proof.
  intros Hnone Hr1 Hr2 Hcs Hcd Htcs Htcd Hs Hd.
  unfold Unavailable, render.
  name_load. run_loader. all: update_facts; try done; no_remote.
Qed.


End LoaderProperties.

(** ** The further properties at the sample data *)

Import SampleScreen.

(** The second sample dua has no Urdu translation. *)
Lemma shared_text_wraps_copied_text_witness :
  textToCopy dua2
  = arabic_text dua2 +:+ LF +:+ LF +:+ translation dua2 +:+ LF +:+ LF +:+
    "Reference: " +:+ reference dua2.
Proof.
  apply (proj2 (shared_text_wraps_copied_text dua2)). reflexivity.
Defined.

(** A first press on the favourite button of the second card. *)
Lemma favorite_press_toggles_witness :
  isFavorite
    (after (press api parse_int obliging "12" dua2 1 favorite_button)
       logged_in)
  = true.
Proof.
  refine (proj1 (favorite_press_toggles api parse_int obliging "12" dua2 1
                   logged_in dua1 [dua2] "secret" _ _ _ _ _ _)).
  - reflexivity.
  - reflexivity.
  - reflexivity.
  - vm_compute. reflexivity.
  - reflexivity.
  - reflexivity.
Defined.

(** The same press without a login. *)
Lemma favorite_press_needs_list_and_login_witness :
  after (press api parse_int obliging "12" dua1 0 favorite_button) unloaded
  = unloaded /\
  toast (after (press api parse_int obliging "12" dua1 0 favorite_button)
           logged_out)
  = shown_toast "Please log in to save favorites" toast_warning.
Proof.
  split.
  - refine (proj1 (favorite_press_needs_list_and_login api parse_int obliging
                     "12" dua1 0 unloaded _ _) _); reflexivity.
  - refine (proj1 (proj2 (proj2 (proj2
              (favorite_press_needs_list_and_login api parse_int obliging
                 "12" dua1 0 logged_out _ _) _ _)))).
    + reflexivity.
    + reflexivity.
    + discriminate.
    + vm_compute. reflexivity.
Defined.

(** The server limits the rate. *)
Lemma favorite_press_failure_witness :
  toast (after (press api parse_int rate_limited "12" dua1 0 favorite_button)
           logged_in)
  = shown_toast "Too many requests. Please try again later." toast_error.
Proof.
  refine (proj2 (proj2 (proj1
            (favorite_press_failure api parse_int rate_limited "12" dua1 0
               logged_in dua1 [dua2]
               (AxiosError
                  (Some {| status := 429; data_error := Some "Slow down" |}))
               _ _ _)))).
  - reflexivity.
  - reflexivity.
  - right. exists "secret".
    repeat split; try reflexivity; try (vm_compute; reflexivity).
Defined.

(** Two presses in a row. *)
Lemma favorite_press_twice_witness :
  isFavorite
    (after (press api parse_int obliging "12" dua1 0 favorite_button)
       (after (press api parse_int obliging "12" dua1 0 favorite_button)
          logged_in))
  = isFavorite logged_in.
Proof.
  refine (proj1 (proj2
            (favorite_press_twice api parse_int obliging "12" dua1 0
               logged_in dua1 [dua2] "secret" _ _ _ _ _ _ _))).
  - reflexivity.
  - reflexivity.
  - reflexivity.
  - vm_compute. reflexivity.
  - reflexivity.
  - reflexivity.
  - reflexivity.
Defined.

(** A press under a rate limit changes neither the page nor the
    player. *)
Lemma favorite_changes_only_when_confirmed_witness :
  page (after (press api parse_int rate_limited "12" dua1 0 favorite_button)
          logged_in)
  = page logged_in.
Proof.
  refine (proj1 (favorite_changes_only_when_confirmed api parse_int
                   rate_limited "12" dua1 0 logged_in _)).
  reflexivity.
Defined.

(** The check of the favourite status on a logged-in screen. *)
Lemma checkFavoriteStatus_follows_first_dua_witness :
  isFavorite (after (checkFavoriteStatus obliging) logged_in) = true.
Proof.
  refine (proj1 (proj2 (proj2
            (checkFavoriteStatus_follows_first_dua obliging logged_in)))
            dua1 [dua2] "secret" true _ _ _ _ _).
  - reflexivity.
  - reflexivity.
  - vm_compute. reflexivity.
  - reflexivity.
  - reflexivity.
Defined.

(** A share that goes through, and one on a device without a share
    sheet. *)
Lemma handleShare_reports_every_failure_witness :
  toast (after (fun _ => handleShare obliging dua1 0) logged_in)
  = toast logged_in /\
  toastType (toast (after (fun _ => handleShare no_sharing dua1 0) logged_in))
  = toast_error.
Proof.
  split.
  - apply (proj1 (handleShare_reports_every_failure obliging dua1 0 logged_in)).
    split; [reflexivity|]. split; [vm_compute; set_solver|].
    exists "file:///cache/card.jpg". repeat split; reflexivity.
  - apply (proj2 (handleShare_reports_every_failure no_sharing dua1 0
                    logged_in)).
    intros [Havailable _]. discriminate Havailable.
Defined.

(** The text button on a device whose share sheet is dismissed. *)
Lemma card_buttons_keep_the_page_witness :
  isFavorite
    (after (press api parse_int no_sharing "12" dua1 0 text_button) logged_in)
  = isFavorite logged_in.
Proof.
  refine (proj1 (proj2 (proj2 (proj2 (proj2
            (card_buttons_keep_the_page api parse_int no_sharing "12" dua1 0
               text_button logged_in)))) _)).
  reflexivity.
Defined.

(** A paused sound in the middle of its recitation. *)
Lemma playSound_toggles_loaded_sound_witness :
  isPlaying (player (after (playSound obliging 7) (paused_at 1500 9000)))
  = true.
Proof.
  refine (proj1 (playSound_toggles_loaded_sound obliging 7
                   (paused_at 1500 9000) 7 _ _ _ _)); reflexivity.
Defined.


(** A screen that shows the loading flag while a sound is loaded. *)
Lemma playSound_never_leaves_loading_on_witness :
  isLoading
    (player
       {| page := page (paused_at 0 9000);
          player := {| sound := Some 7%Z; isPlaying := false;
                       isLoading := true; playbackPosition := 0;
                       playbackDuration := 9000 |};
          isFavorite := false; favLoading := false;
          toast := toast (paused_at 0 9000);
          isSharing := false; viewShotRefs := ∅; effects := [];
          logs := [] |}) = true /\
  is_Some
    (sound
       (player
          {| page := page (paused_at 0 9000);
             player := {| sound := Some 7%Z; isPlaying := false;
                          isLoading := true; playbackPosition := 0;
                          playbackDuration := 9000 |};
             isFavorite := false; favLoading := false;
             toast := toast (paused_at 0 9000);
             isSharing := false; viewShotRefs := ∅; effects := [];
             logs := [] |})).
Proof.
  apply (playSound_never_leaves_loading_on obliging 7). reflexivity.
Defined.

(** The first press on a player that rejects the play. *)
Lemma playSound_first_start_failure_witness :
  sound (player (after (playSound stubborn_player 7) logged_in)) = Some 7%Z /\
  isLoading (player (after (playSound stubborn_player 7) logged_in)) = false.
Proof.
  destruct (proj2 (playSound_first_start_failure stubborn_player 7 logged_in
                     (OtherError "Player is busy") eq_refl)
              eq_refl eq_refl) as (Hsound & _ & Hloading & _).
  split; [exact Hsound | exact Hloading].
Defined.

(** A pause that is rejected. *)
Lemma playSound_unloads_on_failure_witness :
  sound (player (after (playSound stubborn_player 7) (playing_at 1500 9000)))
  = None.
Proof.
  refine (proj1 (playSound_unloads_on_failure stubborn_player 7
                   (playing_at 1500 9000) 7 (OtherError "Player is busy")
                   _ _ _)).
  - reflexivity.
  - left. split; reflexivity.
  - reflexivity.
Defined.

(** The token and the entries of another subcategory survive a load and
    a Retry. *)
Lemma loads_write_only_their_keys_witness :
  store (load api (online morning [dua1; dua2]) "12"
           {| store := {[ "token" := "secret" ]}; ui := initialUI |})
    !! "token"
  = Some "secret" /\
  store (retry api (online morning [dua1; dua2]) "12"
           {| store := {[ "token" := "secret" ]}; ui := initialUI |})
    !! "token"
  = Some "secret".
Proof.
  split.
  - refine (proj1 (loads_write_only_their_keys api
                     (online morning [dua1; dua2]) "12"
                     {| store := {[ "token" := "secret" ]}; ui := initialUI |}
                     "token") _ _); discriminate.
  - refine (proj2 (loads_write_only_their_keys api
                     (online morning [dua1; dua2]) "12"
                     {| store := {[ "token" := "secret" ]}; ui := initialUI |}
                     "token") _ _); discriminate.
Defined.

(** The cached list has two duas, the fetched one only the first. *)
Lemma sound_objects_follow_fetched_list_witness :
  0 ∈ soundObjects
        (ui (load api (online morning2 [dua1]) "12"
               (with_cache morning [dua1; dua2]))).
Proof.
  apply (sound_objects_follow_fetched_list api (online morning2 [dua1]) "12"
           (with_cache morning [dua1; dua2]) morning2 [dua1]).
  - vm_compute. reflexivity.
  - vm_compute. reflexivity.
  - discriminate.
  - exists dua1. split; reflexivity.
Defined.

(** A load with an empty id. *)
Lemma load_without_id_changes_nothing_witness :
  Unavailable
    (run_fetchData api (online morning [dua1; dua2]) ""
       (with_cache morning [dua1]))
    "No subcategory ID found".
Proof.
  refine (proj1 (load_without_id_changes_nothing api
                   (online morning [dua1; dua2]) ""
                   (with_cache morning [dua1]) _)).
  reflexivity.
Defined.

(** A store that rejects the write of the duas. *)
Lemma second_write_rejected_mixes_entry_witness :
  auto_cache_read
    (store
       (load api
          {| isConnected := true; fetch := serving morning2 [dua1];
             getItem_rejects := never;
             setItem_rejects := fun key => String.eqb key "duas_12_cache" |}
          "12" (with_cache morning [dua1; dua2]))) "12"
  = (Some (JSON_stringify morning2),
     store (with_cache morning [dua1; dua2]) !! duas_cache_key "12").
Proof.
  refine (proj1 (proj2
            (second_write_rejected_mixes_entry api
               {| isConnected := true; fetch := serving morning2 [dua1];
                  getItem_rejects := never;
                  setItem_rejects :=
                    fun key => String.eqb key "duas_12_cache" |}
               "12" (with_cache morning [dua1; dua2]) morning2 [dua1]
               _ _ _ _))).
  - vm_compute. reflexivity.
  - vm_compute. reflexivity.
  - reflexivity.
  - reflexivity.
Defined.

(** A Retry online on a new installation. *)
Lemma retry_outcomes_witness :
  render (ui (retry api (online morning [dua1; dua2]) "12" fresh_install))
  = ContentView [dua1; dua2].
Proof.
  refine (proj1 (proj2 (proj2
            (proj2 (retry_outcomes api (online morning [dua1; dua2]) "12"
                      fresh_install)
               morning [dua1; dua2] _ _ _)))).
  - vm_compute. reflexivity.
  - reflexivity.
  - reflexivity.
Defined.

(** A Retry online; later the screen is mounted again without
    connectivity and its load ends with the offline error panel; the
    Retry button of that panel brings back the bundle. *)
Lemma retry_finds_what_retry_stored_witness :
  render
    (ui (retry api offline "12"
           (load api offline "12"
              (remount
                 (retry api (online morning [dua1; dua2]) "12"
                    fresh_install)))))
  = ContentView [dua1; dua2].
Proof.
  refine (proj2 (proj2
            (retry_finds_what_retry_stored api (online morning [dua1; dua2])
               offline "12" fresh_install
               (load api offline "12"
                  (remount
                     (retry api (online morning [dua1; dua2]) "12"
                        fresh_install)))
               morning [dua1; dua2]
               _ _ _ _ _ _ _ _ _))).
  - vm_compute. reflexivity.
  - reflexivity.
  - reflexivity.
  - split; vm_compute; reflexivity.
  - split; vm_compute; reflexivity.
  - vm_compute. reflexivity.
  - reflexivity.
  - reflexivity.
  - vm_compute. reflexivity.
Defined.

(** The store of Retry holds a subcategory that parses and a damaged
    list. *)
Lemma retry_fallback_half_parsed_witness :
  subcategory
    (ui (retry api unreachable_server "12"
           {| store := <["duas_12" := "[oops"]>
                         (<["subcategory_12" := print_subcategory morning]> ∅);
              ui := initialUI |}))
  = Some morning.
Proof.
  refine (proj1
            (retry_fallback_half_parsed api unreachable_server "12"
               {| store := <["duas_12" := "[oops"]>
                             (<["subcategory_12" :=
                                  print_subcategory morning]> ∅);
                  ui := initialUI |}
               (print_subcategory morning) "[oops" morning
               _ _ _ _ _ _ _ _ _)).
  all: try reflexivity.
  all: vm_compute; reflexivity.
Defined.

